(** * The integration lifecycle commands of newrelic-lambda-cli

    A shallow embedding of [newrelic_lambda_cli/cli/integrations.py]: the
    three click commands [install], [uninstall] and [update].  The commands
    are straight-line orchestration code over remote operations (boto3, the
    New Relic GraphQL client, the [integrations], [api] and [permissions]
    modules) and terminal interaction (click).  Every remote operation is a
    constructor of [op]; a run is the program executed against an
    environment that answers each operation, and it yields the chronological
    trace of everything the command did together with how it ended. *)

From Stdlib Require Import String List ZArith Bool.
Import ListNotations.
Open Scope string_scope.

Set Implicit Arguments.

(** ** Values handed around by the commands *)

(** A dynamically typed option value as click delivers it. *)
Inductive pyval : Type :=
| PyNone
| PyInt (n : Z)
| PyStr (s : string).

(** Python truthiness of such a value. *)
Definition truthy (v : pyval) : bool :=
  match v with
  | PyNone => false
  | PyInt n => negb (Z.eqb n 0)
  | PyStr s => negb (String.eqb s "")
  end.

(** An optional text option ([None] when the flag is absent); the text when
    the value is truthy. *)
Definition nonempty (o : option string) : option string :=
  match o with
  | Some s => if String.eqb s "" then None else Some s
  | None => None
  end.

Inductive Session : Type := SessionRef (id : nat).
Inductive GqlClient : Type := ClientRef (id : nat).
Inductive RoleRef : Type := RoleArn (arn : string).

Definition Tags : Type := list (string * string).

(** Exceptions that end a command. [Abort] is click's, [Exit] is the
    non-zero process exit, the others follow the error taxonomy of the
    remote layers. *)
Inductive exn : Type :=
| AuthenticationError
| PermissionError
| UsageError
| TransportError
| TypeError
| Abort
| Exit (code : Z).

Inductive result (A : Type) : Type :=
| Ok (a : A)
| Raise (e : exn).
Arguments Raise {A} e.

(** ** Remote operations *)

(** Modelled from the spec: the callees ([boto3.Session] and the functions
    of the [api], [integrations] and [permissions] modules) are not part of
    [cli/integrations.py]; only their call sites are.  One constructor per
    call site, with the arguments of the call; the index is the type of the
    value the call returns, taken from the consumed interface: a role
    reference or null, a client, a string, and a boolean success indicator
    for the resource operations, the secret and removal operations
    included.  What a call answers is left to the environment. *)
Inductive op : Type -> Type :=
| Boto3Session (profile_name region_name : option string) : op Session
| EnsureIntegrationInstallPermissions (s : Session) : op unit
| EnsureIntegrationUninstallPermissions (s : Session) : op unit
| ValidateGqlCredentials (nr_account_id : pyval) (nr_api_key nr_region : string)
  : op GqlClient
| RetrieveLicenseKey (c : GqlClient) : op string
| GetAwsAccountId (s : Session) : op string
| ValidateLinkedAccount (s : Session) (c : GqlClient) (name : string) : op unit
| CreateIntegrationRole (s : Session) (aws_role_policy : option string)
    (nr_account_id : pyval) (integration_arn : option string) (tags : Tags)
  : op (option RoleRef)
| InstallLicenseKey (s : Session) (nr_license_key : string) (tags : Tags)
  : op bool
| CreateIntegrationAccount (c : GqlClient) (nr_account_id : pyval)
    (name : string) (role : RoleRef) : op bool
| EnableLambdaIntegration (c : GqlClient) (nr_account_id : pyval)
    (name : string) : op bool
| InstallLogIngestion (s : Session) (nr_license_key : string)
    (enable_logs : bool) (memory_size timeout : Z)
    (role_name : option string) (tags : Tags) : op bool
| RemoveIntegrationRole (s : Session) (nr_account_id : pyval) : op bool
| RemoveLogIngestionFunction (s : Session) : op bool
| RemoveLicenseKey (s : Session) : op bool
| UpdateLogIngestion (s : Session) (nr_license_key : option string)
    (enable_logs : option bool) (memory_size timeout : option Z)
    (role_name : option string) (tags : Tags) : op bool
| AutoInstallLicenseKey (s : Session) (tags : Tags) : op bool
| Confirm (text : string) : op bool.

(** What the command writes to the terminal. *)
Inductive output : Type :=
| Echo (msg : string)
| Done (msg : string)
| Failure (msg : string).

(** One entry of a run: a remote call with what came back, or a line
    printed. *)
Inductive event : Type :=
| Called (A : Type) (o : op A) (r : result A)
| Printed (line : output).

Unset Implicit Arguments.

Definition trace : Type := list event.

(** The environment answers a call, possibly depending on everything that
    happened before it. *)
Definition Env : Type := forall A : Type, trace -> op A -> result A.

(** ** The command monad: the trace is threaded, an exception stops the run
    and keeps the trace written so far. *)
Definition M (A : Type) : Type := trace -> result A * trace.

Definition ret {A : Type} (a : A) : M A := fun t => (Ok a, t).

Definition raise {A : Type} (e : exn) : M A := fun t => (Raise e, t).

Definition bind {A B : Type} (m : M A) (k : A -> M B) : M B :=
  fun t =>
    match m t with
    | (Ok a, t') => k a t'
    | (Raise e, t') => (Raise e, t')
    end.

Declare Scope cmd_scope.
Delimit Scope cmd_scope with cmd.
Notation "x <- m ;; k" := (bind m (fun x => k))
  (at level 61, m at next level, right associativity) : cmd_scope.
Notation "m ;; k" := (bind m (fun _ => k))
  (at level 61, right associativity) : cmd_scope.
Open Scope cmd_scope.

Definition emit (line : output) : M unit :=
  fun t => (Ok tt, (t ++ [Printed line])%list).

(** [if b: m] *)
Definition when (b : bool) (m : M unit) : M unit :=
  if b then m else ret tt.

(** Python's [a and f()] on booleans: [f] is only called when [a] holds. *)
Definition py_and (a : bool) (m : M bool) : M bool :=
  if a then m else ret a.

(** [sep.join(items)]: every item has to be a [str]. *)
Fixpoint py_join (sep : string) (items : list pyval) {struct items}
  : result string :=
  match items with
  | [] => Ok ""
  | item :: rest =>
      match item with
      | PyStr s =>
          match rest with
          | [] => Ok s
          | _ :: _ =>
              match py_join sep rest with
              | Ok tl => Ok (s ++ sep ++ tl)
              | Raise e => Raise e
              end
          end
      | _ => Raise TypeError
      end
  end.

Definition lift {A : Type} (r : result A) : M A := fun t => (r, t).

Definition newline : string := String (Ascii.ascii_of_nat 10) "".

(** ** Configurations: the options click passes to each command *)

Record InstallConfig : Type := {
  i_aws_profile : option string;
  i_aws_region : option string;
  i_aws_permissions_check : bool;
  i_aws_role_policy : option string;
  i_enable_logs : bool;
  i_memory_size : Z;
  i_linked_account_name : option string;
  i_nr_account_id : pyval;
  i_nr_api_key : string;
  i_nr_region : string;
  i_timeout : Z;
  i_role_name : option string;
  i_enable_license_key_secret : bool;
  i_integration_arn : option string;
  i_tags : Tags
}.

Record UninstallConfig : Type := {
  u_aws_profile : option string;
  u_aws_region : option string;
  u_aws_permissions_check : bool;
  u_nr_account_id : pyval;
  u_force : bool
}.

Record UpdateConfig : Type := {
  p_aws_profile : option string;
  p_aws_region : option string;
  p_aws_permissions_check : bool;
  p_enable_logs : option bool;
  p_memory_size : option Z;
  p_timeout : option Z;
  p_role_name : option string;
  p_enable_license_key_secret : bool;
  p_tags : Tags
}.

(** The prompts of [uninstall]. *)
Definition role_prompt : string :=
  "This will uninstall the New Relic AWS Lambda integration role. "
  ++ "Are you sure you want to proceed?".

Definition function_prompt : string :=
  "This will uninstall the New Relic AWS Lambda log ingestion function and "
  ++ "role. Are you sure you want to proceed?".

Definition secret_prompt : string :=
  "This will uninstall the New Relic License Key managed secret, and IAM "
  ++ "Policy. "
  ++ "Are you sure you want to proceed?".

Section Commands.

Variable env : Env.

(** A remote call: ask the environment, record the call and its answer. *)
Definition perform {A : Type} (o : op A) : M A :=
  fun t => let r := env A t o in (r, (t ++ [Called o r])%list).

Definition echo (msg : string) : M unit := emit (Echo msg).

(** Modelled from the spec: [cliutils.done] prints the completion
    report. *)
Definition done (msg : string) : M unit := emit (Done msg).

(** Modelled from the spec: [cliutils.failure] prints the failure summary
    and, with [exit=True], makes the process exit non-zero. *)
Definition failure (msg : string) (exit : bool) : M unit :=
  emit (Failure msg) ;;
  if exit then raise (Exit 1) else ret tt.

(** [click.confirm(text, abort=...)]: the answer of the user; with
    [abort=True] a negative answer raises [Abort]. *)
Definition confirm (text : string) (abort : bool) : M bool :=
  answer <- perform (Confirm text) ;;
  if abort && negb answer then raise Abort else ret answer.

Definition install (verbose : bool) (c : InstallConfig) : M unit :=
  session <- perform (Boto3Session (i_aws_profile c) (i_aws_region c)) ;;
  when (i_aws_permissions_check c)
    (perform (EnsureIntegrationInstallPermissions session)) ;;
  echo "Validating New Relic credentials" ;;
  gql_client <- perform (ValidateGqlCredentials (i_nr_account_id c)
                           (i_nr_api_key c) (i_nr_region c)) ;;
  echo "Retrieving integration license key" ;;
  nr_license_key <- perform (RetrieveLicenseKey gql_client) ;;
  linked_account_name <-
    match nonempty (i_linked_account_name c) with
    | Some name => ret name
    | None =>
        account <- perform (GetAwsAccountId session) ;;
        ret ("New Relic Lambda Integration - " ++ account)
    end ;;
  echo "Checking for a pre-existing link between New Relic and AWS" ;;
  perform (ValidateLinkedAccount session gql_client linked_account_name) ;;
  echo "Creating the AWS role for the New Relic AWS Lambda Integration" ;;
  role <- perform (CreateIntegrationRole session (i_aws_role_policy c)
                     (i_nr_account_id c) (i_integration_arn c) (i_tags c)) ;;
  when (i_enable_license_key_secret c)
    (echo "Creating the managed secret for the New Relic License Key" ;;
     _ <- perform (InstallLicenseKey session nr_license_key (i_tags c)) ;;
     ret tt) ;;
  let install_success := true in
  install_success <-
    match role with
    | Some role =>
        echo "Linking New Relic account to AWS account" ;;
        res <- perform (CreateIntegrationAccount gql_client
                          (i_nr_account_id c) linked_account_name role) ;;
        let install_success := res && install_success in
        echo "Enabling Lambda integration on the link between New Relic and AWS" ;;
        res <- perform (EnableLambdaIntegration gql_client
                          (i_nr_account_id c) linked_account_name) ;;
        ret (res && install_success)
    | None => ret install_success
    end ;;
  echo "Creating newrelic-log-ingestion Lambda function in AWS account" ;;
  res <- perform (InstallLogIngestion session nr_license_key
                    (i_enable_logs c) (i_memory_size c) (i_timeout c)
                    (i_role_name c) (i_tags c)) ;;
  let install_success := res && install_success in
  if install_success then
    done "Install Complete" ;;
    when verbose
      (echo (newline
             ++ "Next steps: Add the New Relic layers to your Lambda functions with "
             ++ "the below command." ++ newline) ;;
       let command :=
         [PyStr "$"; PyStr "newrelic-lambda"; PyStr "layers";
          PyStr "install"; PyStr "--function"; PyStr "all";
          PyStr "--nr-account-id"; i_nr_account_id c] in
       let command :=
         match nonempty (i_aws_profile c) with
         | Some p => (command ++ [PyStr ("--aws-profile " ++ p)])%list
         | None => command
         end in
       let command :=
         match nonempty (i_aws_region c) with
         | Some r => (command ++ [PyStr ("--aws-region " ++ r)])%list
         | None => command
         end in
       line <- lift (py_join " " command) ;;
       echo line)
  else
    failure "Install Incomplete. See messages above for details." true.

Definition uninstall (c : UninstallConfig) : M unit :=
  session <- perform (Boto3Session (u_aws_profile c) (u_aws_region c)) ;;
  when (u_aws_permissions_check c)
    (perform (EnsureIntegrationUninstallPermissions session)) ;;
  let uninstall_integration := true in
  uninstall_integration <-
    (if negb (u_force c) && truthy (u_nr_account_id c)
     then confirm role_prompt false
     else ret uninstall_integration) ;;
  when (uninstall_integration && truthy (u_nr_account_id c))
    (_ <- perform (RemoveIntegrationRole session (u_nr_account_id c)) ;;
     ret tt) ;;
  when (negb (u_force c))
    (_ <- confirm function_prompt true ;; ret tt) ;;
  _ <- perform (RemoveLogIngestionFunction session) ;;
  when (negb (u_force c))
    (_ <- confirm secret_prompt true ;; ret tt) ;;
  _ <- perform (RemoveLicenseKey session) ;;
  done "Uninstall Complete".

Definition update (c : UpdateConfig) : M unit :=
  session <- perform (Boto3Session (p_aws_profile c) (p_aws_region c)) ;;
  when (p_aws_permissions_check c)
    (perform (EnsureIntegrationInstallPermissions session)) ;;
  let update_success := true in
  echo "Updating newrelic-log-ingestion Lambda function in AWS account" ;;
  res <- perform (UpdateLogIngestion session None (p_enable_logs c)
                    (p_memory_size c) (p_timeout c) (p_role_name c)
                    (p_tags c)) ;;
  let update_success := res && update_success in
  update_success <-
    (if p_enable_license_key_secret c
     then py_and update_success
            (perform (AutoInstallLicenseKey session (p_tags c)))
     else _ <- perform (RemoveLicenseKey session) ;; ret update_success) ;;
  if update_success then done "Update Complete"
  else failure "Update Incomplete. See messages above for details." true.

End Commands.

(** A run of a command starts from the empty trace. *)
Definition run {A : Type} (m : M A) : result A * trace := m [].
Definition ending {A : Type} (m : M A) : result A := fst (run m).
Definition history {A : Type} (m : M A) : trace := snd (run m).

(** ** Reading a trace *)

(** The name of a remote operation, without its arguments. *)
Inductive kind : Type :=
| KSession
| KEnsureInstallPermissions
| KEnsureUninstallPermissions
| KValidateGqlCredentials
| KRetrieveLicenseKey
| KGetAwsAccountId
| KValidateLinkedAccount
| KCreateIntegrationRole
| KInstallLicenseKey
| KCreateIntegrationAccount
| KEnableLambdaIntegration
| KInstallLogIngestion
| KRemoveIntegrationRole
| KRemoveLogIngestionFunction
| KRemoveLicenseKey
| KUpdateLogIngestion
| KAutoInstallLicenseKey
| KConfirm.

Definition kind_eq_dec (a b : kind) : {a = b} + {a <> b}.
Proof. decide equality. Defined.

Definition kind_eqb (a b : kind) : bool :=
  if kind_eq_dec a b then true else false.

Definition op_kind {A : Type} (o : op A) : kind :=
  match o with
  | Boto3Session _ _ => KSession
  | EnsureIntegrationInstallPermissions _ => KEnsureInstallPermissions
  | EnsureIntegrationUninstallPermissions _ => KEnsureUninstallPermissions
  | ValidateGqlCredentials _ _ _ => KValidateGqlCredentials
  | RetrieveLicenseKey _ => KRetrieveLicenseKey
  | GetAwsAccountId _ => KGetAwsAccountId
  | ValidateLinkedAccount _ _ _ => KValidateLinkedAccount
  | CreateIntegrationRole _ _ _ _ _ => KCreateIntegrationRole
  | InstallLicenseKey _ _ _ => KInstallLicenseKey
  | CreateIntegrationAccount _ _ _ _ => KCreateIntegrationAccount
  | EnableLambdaIntegration _ _ _ => KEnableLambdaIntegration
  | InstallLogIngestion _ _ _ _ _ _ _ => KInstallLogIngestion
  | RemoveIntegrationRole _ _ => KRemoveIntegrationRole
  | RemoveLogIngestionFunction _ => KRemoveLogIngestionFunction
  | RemoveLicenseKey _ => KRemoveLicenseKey
  | UpdateLogIngestion _ _ _ _ _ _ _ => KUpdateLogIngestion
  | AutoInstallLicenseKey _ _ => KAutoInstallLicenseKey
  | Confirm _ => KConfirm
  end.

(** [is_call k e]: the entry [e] is a call of the operation [k], whatever
    came back. *)
Definition is_call (k : kind) (e : event) : bool :=
  match e with
  | Called o _ => kind_eqb (op_kind o) k
  | Printed _ => false
  end.

(** The operation [k] was attempted somewhere in the trace. *)
Definition attempted (k : kind) (t : trace) : bool := existsb (is_call k) t.

(** The boolean a call returned, for the operations that return one. *)
Definition returned_bool {A : Type} (o : op A) : result A -> option bool :=
  match o in op T return result T -> option bool with
  | InstallLicenseKey _ _ _
  | CreateIntegrationAccount _ _ _ _
  | EnableLambdaIntegration _ _ _
  | InstallLogIngestion _ _ _ _ _ _ _
  | RemoveIntegrationRole _ _
  | RemoveLogIngestionFunction _
  | RemoveLicenseKey _
  | UpdateLogIngestion _ _ _ _ _ _ _
  | AutoInstallLicenseKey _ _
  | Confirm _ =>
      fun r => match r with Ok b => Some b | Raise _ => None end
  | _ => fun _ => None
  end.

(** The outcome of the first call of [k] in the trace: [Some b] when the
    call returned the boolean [b]; [None] when there is no such call or it
    raised. *)
Fixpoint outcome (k : kind) (t : trace) : option bool :=
  match t with
  | [] => None
  | Called o r :: rest =>
      if kind_eqb (op_kind o) k then returned_bool o r else outcome k rest
  | Printed _ :: rest => outcome k rest
  end.

(** No remote call ended in an exception. *)
Definition call_returned (e : event) : bool :=
  match e with
  | Called _ (Raise _) => false
  | _ => true
  end.

Definition all_calls_returned (t : trace) : bool := forallb call_returned t.

(** The report at the end of a command: [Some true] for the completion
    line of [done], [Some false] for the summary of [failure], [None] when
    neither was printed. *)
Fixpoint reported (t : trace) : option bool :=
  match t with
  | [] => None
  | Printed (Done _) :: _ => Some true
  | Printed (Failure _) :: _ => Some false
  | _ :: rest => reported rest
  end.

(** Number of confirmation prompts shown. *)
Definition prompts (t : trace) : nat :=
  List.length (filter (is_call KConfirm) t).

(** The prompt [text] was shown and answered no. *)
Definition declined (text : string) (e : event) : bool :=
  match e with
  | Called o r =>
      match o in op T return result T -> bool with
      | Confirm shown =>
          fun r =>
            match r with
            | Ok answer => String.eqb shown text && negb answer
            | Raise _ => false
            end
      | _ => fun _ => false
      end r
  | Printed _ => false
  end.

(** The role the role-creation call returned, when it returned one. *)
Definition role_created (e : event) : option RoleRef :=
  match e with
  | Called o r =>
      match o in op T return result T -> option RoleRef with
      | CreateIntegrationRole _ _ _ _ _ =>
          fun r => match r with Ok role => role | Raise _ => None end
      | _ => fun _ => None
      end r
  | Printed _ => None
  end.

(** The role-creation call returned null. *)
Definition role_missing (e : event) : bool :=
  match e with
  | Called o r =>
      match o in op T return result T -> bool with
      | CreateIntegrationRole _ _ _ _ _ =>
          fun r => match r with Ok None => true | _ => false end
      | _ => fun _ => false
      end r
  | Printed _ => false
  end.

(** The role a link-creation call was given. *)
Definition link_role (e : event) : option RoleRef :=
  match e with
  | Called o _ =>
      match o with
      | CreateIntegrationAccount _ _ _ role => Some role
      | _ => None
      end
  | Printed _ => None
  end.

(** The credential validation was called and raised [AuthenticationError]. *)
Definition validation_failed (e : event) : bool :=
  match e with
  | Called o r =>
      match o in op T return result T -> bool with
      | ValidateGqlCredentials _ _ _ =>
          fun r => match r with Raise AuthenticationError => true | _ => false end
      | _ => fun _ => false
      end r
  | Printed _ => false
  end.

(** The operations that create, change or remove a resource in the cloud
    account or on the platform. *)
Definition mutation (k : kind) : bool :=
  match k with
  | KCreateIntegrationRole | KInstallLicenseKey | KCreateIntegrationAccount
  | KEnableLambdaIntegration | KInstallLogIngestion | KRemoveIntegrationRole
  | KRemoveLogIngestionFunction | KRemoveLicenseKey | KUpdateLogIngestion
  | KAutoInstallLicenseKey => true
  | _ => false
  end.

Definition is_mutation (e : event) : bool :=
  match e with
  | Called o _ => mutation (op_kind o)
  | Printed _ => false
  end.

(** The last entry of a trace. *)
Fixpoint final (t : trace) : option event :=
  match t with
  | [] => None
  | e :: rest => match rest with [] => Some e | _ :: _ => final rest end
  end.

(** The remote operations of a trace, in the order they were called. *)
Fixpoint calls (t : trace) : list kind :=
  match t with
  | [] => []
  | Called o _ :: rest => op_kind o :: calls rest
  | Printed _ :: rest => calls rest
  end.

(** ** Concrete environments

    A world fixes what every remote operation answers; it is used to run
    the commands on concrete inputs. *)
Record World : Type := {
  w_permissions_ok : bool;
  w_credentials_ok : bool;
  w_role : option RoleRef;
  w_secret_ok : bool;
  w_link_ok : bool;
  w_feature_ok : bool;
  w_function_ok : bool;
  w_update_ok : bool;
  w_auto_secret_ok : bool;
  w_remove_role_ok : bool;
  w_remove_function_ok : bool;
  w_remove_secret_ok : bool;
  w_answer : string -> bool
}.

Definition world_env (w : World) : Env :=
  fun A _ o =>
    match o in op T return result T with
    | Boto3Session _ _ => Ok (SessionRef 0)
    | EnsureIntegrationInstallPermissions _
    | EnsureIntegrationUninstallPermissions _ =>
        if w_permissions_ok w then Ok tt else Raise PermissionError
    | ValidateGqlCredentials _ _ _ =>
        if w_credentials_ok w then Ok (ClientRef 0)
        else Raise AuthenticationError
    | RetrieveLicenseKey _ => Ok "license-key"
    | GetAwsAccountId _ => Ok "123456789012"
    | ValidateLinkedAccount _ _ _ => Ok tt
    | CreateIntegrationRole _ _ _ _ _ => Ok (w_role w)
    | InstallLicenseKey _ _ _ => Ok (w_secret_ok w)
    | CreateIntegrationAccount _ _ _ _ => Ok (w_link_ok w)
    | EnableLambdaIntegration _ _ _ => Ok (w_feature_ok w)
    | InstallLogIngestion _ _ _ _ _ _ _ => Ok (w_function_ok w)
    | RemoveIntegrationRole _ _ => Ok (w_remove_role_ok w)
    | RemoveLogIngestionFunction _ => Ok (w_remove_function_ok w)
    | RemoveLicenseKey _ => Ok (w_remove_secret_ok w)
    | UpdateLogIngestion _ _ _ _ _ _ _ => Ok (w_update_ok w)
    | AutoInstallLicenseKey _ _ => Ok (w_auto_secret_ok w)
    | Confirm text => Ok (w_answer w text)
    end.

(** Everything succeeds, every prompt is answered yes. *)
Definition fair_weather : World := {|
  w_permissions_ok := true;
  w_credentials_ok := true;
  w_role := Some (RoleArn "arn:aws:iam::123456789012:role/NewRelicLambdaIntegrationRole_1");
  w_secret_ok := true;
  w_link_ok := true;
  w_feature_ok := true;
  w_function_ok := true;
  w_update_ok := true;
  w_auto_secret_ok := true;
  w_remove_role_ok := true;
  w_remove_function_ok := true;
  w_remove_secret_ok := true;
  w_answer := fun _ => true
|}.

(** The defaults of the [install] options, for account 1. *)
Definition default_install : InstallConfig := {|
  i_aws_profile := None;
  i_aws_region := None;
  i_aws_permissions_check := false;
  i_aws_role_policy := None;
  i_enable_logs := false;
  i_memory_size := 128;
  i_linked_account_name := None;
  i_nr_account_id := PyInt 1;
  i_nr_api_key := "api-key";
  i_nr_region := "us";
  i_timeout := 30;
  i_role_name := None;
  i_enable_license_key_secret := true;
  i_integration_arn := None;
  i_tags := []
|}.

Definition default_update : UpdateConfig := {|
  p_aws_profile := None;
  p_aws_region := None;
  p_aws_permissions_check := false;
  p_enable_logs := None;
  p_memory_size := None;
  p_timeout := None;
  p_role_name := None;
  p_enable_license_key_secret := true;
  p_tags := []
|}.

Definition forced_uninstall (account : pyval) : UninstallConfig := {|
  u_aws_profile := None;
  u_aws_region := None;
  u_aws_permissions_check := false;
  u_nr_account_id := account;
  u_force := true
|}.

Definition interactive_uninstall (account : pyval) : UninstallConfig := {|
  u_aws_profile := None;
  u_aws_region := None;
  u_aws_permissions_check := false;
  u_nr_account_id := account;
  u_force := false
|}.

(** * Properties *)

(** ** Frame reasoning: what a command may append to the trace *)

(** [writes_only Q m]: whatever the trace before, [m] only appends entries
    that satisfy [Q]. *)
Definition writes_only {A : Type} (Q : event -> bool) (m : M A) : Prop :=
  forall t, exists added, snd (m t) = (t ++ added)%list /\ forallb Q added = true.

Section Frame.

Variable env : Env.
Variable Q : event -> bool.

Lemma writes_only_ret (A : Type) (a : A) : writes_only Q (ret a).
Proof. intro t. exists []. simpl. now rewrite app_nil_r. Qed.

Lemma writes_only_raise (A : Type) (e : exn) : writes_only Q (@raise A e).
Proof. intro t. exists []. simpl. now rewrite app_nil_r. Qed.

Lemma writes_only_lift (A : Type) (r : result A) : writes_only Q (lift r).
Proof. intro t. exists []. simpl. now rewrite app_nil_r. Qed.

Lemma writes_only_emit (line : output) :
  Q (Printed line) = true -> writes_only Q (emit line).
Proof. intros H t. exists [Printed line]. simpl. now rewrite H. Qed.

Lemma writes_only_perform (A : Type) (o : op A) :
  (forall r, Q (Called o r) = true) -> writes_only Q (perform env o).
Proof.
  intros H t. exists [Called o (env A t o)]. simpl. now rewrite H.
Qed.

Lemma writes_only_bind (A B : Type) (m : M A) (k : A -> M B) :
  writes_only Q m -> (forall a, writes_only Q (k a)) ->
  writes_only Q (bind m k).
Proof.
  intros Hm Hk t. unfold bind.
  destruct (Hm t) as [added1 [E1 F1]].
  destruct (m t) as [[a | e] t1]; simpl in E1; subst t1.
  - destruct (Hk a (t ++ added1)%list) as [added2 [E2 F2]].
    exists (added1 ++ added2)%list. rewrite E2, app_assoc. split; [easy|].
    rewrite forallb_app, F1, F2. reflexivity.
  - exists added1. simpl. auto.
Qed.

Lemma writes_only_when (b : bool) (m : M unit) :
  (b = true -> writes_only Q m) -> writes_only Q (when b m).
Proof.
  destruct b; simpl; intros H; [now apply H | apply writes_only_ret].
Qed.

Lemma writes_only_py_and (a : bool) (m : M bool) :
  (a = true -> writes_only Q m) -> writes_only Q (py_and a m).
Proof.
  destruct a; simpl; intros H; [now apply H | apply writes_only_ret].
Qed.

Lemma writes_only_history (A : Type) (m : M A) :
  writes_only Q m -> forallb Q (history m) = true.
Proof.
  intros H. unfold history, run. destruct (H []) as [added [E F]].
  rewrite E. exact F.
Qed.

End Frame.

Lemma forallb_excludes (Q : event -> bool) (k : kind) (t : trace) :
  (forall e, Q e = true -> is_call k e = false) ->
  forallb Q t = true -> attempted k t = false.
Proof.
  intros HQ. unfold attempted. induction t as [| e t IH]; simpl; [easy|].
  intros H. apply andb_true_iff in H as [He Ht].
  rewrite (HQ e He), (IH Ht). reflexivity.
Qed.

(** Proves a frame goal by walking through the command. *)
Ltac frame :=
  repeat first
    [ apply writes_only_ret
    | apply writes_only_raise
    | apply writes_only_lift
    | apply writes_only_emit; reflexivity
    | apply writes_only_perform; intros; reflexivity
    | apply writes_only_bind; [| intros ]
    | apply writes_only_when; intros
    | apply writes_only_py_and; intros
    | match goal with
      | |- writes_only _ (if ?b then _ else _) => destruct b eqn:?
      | |- writes_only _ (match ?x with Some _ => _ | None => _ end) =>
          destruct x eqn:?
      | |- writes_only _ (let _ := _ in _) => cbv zeta
      end ].

(** The calls [update] is made of. *)
Definition update_call (e : event) : bool :=
  match e with
  | Called o _ =>
      match op_kind o with
      | KSession | KEnsureInstallPermissions | KUpdateLogIngestion
      | KAutoInstallLicenseKey | KRemoveLicenseKey => true
      | _ => false
      end
  | Printed _ => true
  end.

Lemma update_frame (env : Env) (c : UpdateConfig) :
  writes_only update_call (update env c).
Proof. unfold update, echo, done, failure. frame. Qed.

(** C9. Under every environment and every configuration, [update] issues
    no role-creation call and no linked-account-creation call: every remote
    call of the run is the session construction, the permission pre-check,
    the ingestion-function update, or the auto-install or removal of the
    license-key secret. *)
Theorem update_never_creates_role_or_link (env : Env) (c : UpdateConfig) :
  attempted KCreateIntegrationRole (history (update env c)) = false /\
  attempted KCreateIntegrationAccount (history (update env c)) = false /\
  forallb update_call (history (update env c)) = true.
Proof.
  pose proof (writes_only_history _ _ _ (update_frame env c)) as H.
  repeat split; try exact H.
  - apply forallb_excludes with (Q := update_call); [| exact H].
    intros [A o r | line]; [destruct o |]; vm_compute; congruence.
  - apply forallb_excludes with (Q := update_call); [| exact H].
    intros [A o r | line]; [destruct o |]; vm_compute; congruence.
Qed.

(** Any call but the three license-key-secret operations. *)
Definition not_secret_call (e : event) : bool :=
  negb (is_call KInstallLicenseKey e)
  && negb (is_call KAutoInstallLicenseKey e)
  && negb (is_call KRemoveLicenseKey e).

Lemma install_without_secret_frame (env : Env) (verbose : bool)
    (c : InstallConfig) :
  i_enable_license_key_secret c = false ->
  writes_only not_secret_call (install env verbose c).
Proof.
  intros H. unfold install, echo, done, failure. rewrite H. frame.
Qed.

(** C8. With the license-key-secret feature disabled, an [install] run
    makes no call that creates or updates the secret (nor any other
    license-key-secret call), whatever the environment answers. *)
Theorem install_secret_disabled_no_secret_call (env : Env) (verbose : bool)
    (c : InstallConfig) :
  i_enable_license_key_secret c = false ->
  attempted KInstallLicenseKey (history (install env verbose c)) = false /\
  attempted KAutoInstallLicenseKey (history (install env verbose c)) = false.
Proof.
  intros H.
  pose proof (writes_only_history _ _ _
                (install_without_secret_frame env verbose c H)) as F.
  split; apply forallb_excludes with (Q := not_secret_call); try exact F;
    intros e He; unfold not_secret_call in He;
    repeat (apply andb_true_iff in He as [He ?]);
    now apply negb_true_iff.
Qed.

Lemma install_secret_disabled_no_secret_call_witness :
  attempted KInstallLicenseKey
    (history (install (world_env fair_weather) false
       {| i_aws_profile := None;
          i_aws_region := Some "us-east-1";
          i_aws_permissions_check := true;
          i_aws_role_policy := None;
          i_enable_logs := false;
          i_memory_size := 128;
          i_linked_account_name := None;
          i_nr_account_id := PyInt 1;
          i_nr_api_key := "api-key";
          i_nr_region := "us";
          i_timeout := 30;
          i_role_name := None;
          i_enable_license_key_secret := false;
          i_integration_arn := None;
          i_tags := [] |})) = false /\
  attempted KAutoInstallLicenseKey
    (history (install (world_env fair_weather) false
       {| i_aws_profile := None;
          i_aws_region := Some "us-east-1";
          i_aws_permissions_check := true;
          i_aws_role_policy := None;
          i_enable_logs := false;
          i_memory_size := 128;
          i_linked_account_name := None;
          i_nr_account_id := PyInt 1;
          i_nr_api_key := "api-key";
          i_nr_region := "us";
          i_timeout := 30;
          i_role_name := None;
          i_enable_license_key_secret := false;
          i_integration_arn := None;
          i_tags := [] |})) = false.
Proof.
  apply install_secret_disabled_no_secret_call. reflexivity.
Defined.

(** ** Running a command step by step *)

Section Stepping.

Variable env : Env.

Lemma bind_assoc (A B C : Type) (m : M A) (f : A -> M B) (g : B -> M C)
    (t : trace) :
  bind (bind m f) g t = bind m (fun a => bind (f a) g) t.
Proof. unfold bind. destruct (m t) as [[a | e] t']; reflexivity. Qed.

Lemma bind_ret (A B : Type) (a : A) (k : A -> M B) (t : trace) :
  bind (ret a) k t = k a t.
Proof. reflexivity. Qed.

Lemma bind_raise (A B : Type) (e : exn) (k : A -> M B) (t : trace) :
  bind (raise e) k t = (Raise e, t).
Proof. reflexivity. Qed.

Lemma bind_lift (A B : Type) (r : result A) (k : A -> M B) (t : trace) :
  bind (lift r) k t =
  match r with Ok a => k a t | Raise e => (Raise e, t) end.
Proof. reflexivity. Qed.

Lemma bind_emit (B : Type) (line : output) (k : unit -> M B) (t : trace) :
  bind (emit line) k t = k tt (t ++ [Printed line])%list.
Proof. reflexivity. Qed.

Lemma bind_perform (A B : Type) (o : op A) (k : A -> M B) (t : trace) :
  bind (perform env o) k t =
  match env A t o with
  | Ok a => k a (t ++ [Called o (Ok a)])%list
  | Raise e => (Raise e, (t ++ [Called o (Raise e)])%list)
  end.
Proof. unfold bind, perform. simpl. destruct (env A t o); reflexivity. Qed.

Lemma run_perform (A : Type) (o : op A) (t : trace) :
  perform env o t =
  match env A t o with
  | Ok a => (Ok a, (t ++ [Called o (Ok a)])%list)
  | Raise e => (Raise e, (t ++ [Called o (Raise e)])%list)
  end.
Proof. unfold perform. simpl. destruct (env A t o); reflexivity. Qed.

End Stepping.

(** Case split on the leftmost atom of a condition. *)
Ltac split_condition b :=
  lazymatch b with
  | ?x && _ => split_condition x
  | negb ?x => split_condition x
  | _ => destruct b eqn:?
  end.

(** One step of a run whose state is the premise [_ = m t] of the goal:
    the head statement of [m] is executed, with a case split on the
    environment's answer or on the condition it tests. *)
Ltac step env :=
  cbv zeta; cbn [app andb negb];
  lazymatch goal with
  | |- _ = bind (bind _ _) _ _ -> _ => rewrite bind_assoc
  | |- _ = bind (ret _) _ _ -> _ => rewrite bind_ret
  | |- _ = bind (raise _) _ _ -> _ => rewrite bind_raise
  | |- _ = bind (emit _) _ _ -> _ => rewrite bind_emit
  | |- _ = bind (echo _) _ _ -> _ => unfold echo at 1
  | |- _ = bind (done _) _ _ -> _ => unfold done at 1
  | |- _ = bind (failure _ _) _ _ -> _ => unfold failure at 1
  | |- _ = bind (confirm _ _ _) _ _ -> _ => unfold confirm at 1
  | |- _ = bind (lift ?r) _ _ -> _ =>
      rewrite bind_lift; destruct r eqn:?
  | |- _ = bind (perform _ ?o) _ ?t -> _ =>
      rewrite (bind_perform env); destruct (env _ t o) eqn:?
  | |- _ = bind (when true _) _ _ -> _ => unfold when at 1
  | |- _ = bind (when false _) _ _ -> _ => unfold when at 1
  | |- _ = bind (when ?b _) _ _ -> _ => split_condition b
  | |- _ = bind (py_and true _) _ _ -> _ => unfold py_and at 1
  | |- _ = bind (py_and false _) _ _ -> _ => unfold py_and at 1
  | |- _ = bind (py_and ?b _) _ _ -> _ => split_condition b
  | |- _ = bind (if ?b then _ else _) _ _ -> _ => split_condition b
  | |- _ = bind (match ?x with Some _ => _ | None => _ end) _ _ -> _ =>
      destruct x eqn:?
  | |- _ = (if ?b then _ else _) _ -> _ => split_condition b
  | |- _ = done _ _ -> _ => unfold done, emit
  | |- _ = failure _ _ _ -> _ => unfold failure at 1
  | |- _ = emit _ _ -> _ => unfold emit
  | |- _ = ret _ _ -> _ => unfold ret
  | |- _ = raise _ _ -> _ => unfold raise
  | |- _ = when true _ _ -> _ => unfold when at 1
  | |- _ = when false _ _ -> _ => unfold when at 1
  | |- _ = when ?b _ _ -> _ => split_condition b
  | |- _ = perform _ ?o ?t -> _ =>
      rewrite (run_perform env); destruct (env _ t o) eqn:?
  end.

Ltac steps env := repeat (step env).

(** Names the run of [m] in the goal and makes its defining equation the
    premise the stepping works on. *)
Ltac name_run m :=
  unfold history, ending;
  let X := fresh "X" in
  let E := fresh "E" in
  remember (run m) as X eqn:E; revert E; unfold run.

(** ** The commands on concrete inputs *)

Example install_fair_weather_calls :
  calls (history (install (world_env fair_weather) false default_install)) =
    [KSession; KValidateGqlCredentials; KRetrieveLicenseKey; KGetAwsAccountId;
     KValidateLinkedAccount; KCreateIntegrationRole; KInstallLicenseKey;
     KCreateIntegrationAccount; KEnableLambdaIntegration;
     KInstallLogIngestion] /\
  reported (history (install (world_env fair_weather) false default_install))
    = Some true.
Proof. split; reflexivity. Qed.

Example uninstall_interactive_calls :
  calls (history (uninstall (world_env fair_weather)
                    (interactive_uninstall (PyInt 1)))) =
    [KSession; KConfirm; KRemoveIntegrationRole; KConfirm;
     KRemoveLogIngestionFunction; KConfirm; KRemoveLicenseKey] /\
  ending (uninstall (world_env fair_weather)
            (interactive_uninstall (PyInt 1))) = Ok tt.
Proof. split; reflexivity. Qed.

Example update_fair_weather_calls :
  calls (history (update (world_env fair_weather) default_update)) =
    [KSession; KUpdateLogIngestion; KAutoInstallLicenseKey] /\
  reported (history (update (world_env fair_weather) default_update))
    = Some true.
Proof. split; reflexivity. Qed.

Example join_needs_text :
  py_join " " [PyStr "--nr-account-id"; PyStr "1"] = Ok "--nr-account-id 1" /\
  py_join " " [PyStr "--nr-account-id"; PyInt 1] = Raise TypeError.
Proof. split; reflexivity. Qed.

(** ** uninstall *)

(** The mutating calls of a trace, in order. *)
Definition mutations (t : trace) : list kind := filter mutation (calls t).

(** The reading of the forced-uninstall sentence as it is written: with
    [force] no prompt is shown and each of the three removals is attempted,
    whatever the other options are. *)
Definition forced_uninstall_removes_all (env : Env) (c : UninstallConfig)
  : Prop :=
  u_force c = true ->
  prompts (history (uninstall env c)) = 0 /\
  attempted KRemoveIntegrationRole (history (uninstall env c)) = true /\
  attempted KRemoveLogIngestionFunction (history (uninstall env c)) = true /\
  attempted KRemoveLicenseKey (history (uninstall env c)) = true.

(** C3, as written, fails: a forced uninstall without an account id never
    calls the integration-role removal, although every call it makes
    returns. *)
Lemma forced_uninstall_without_account_keeps_role :
  all_calls_returned
    (history (uninstall (world_env fair_weather) (forced_uninstall PyNone)))
  = true /\
  ~ forced_uninstall_removes_all (world_env fair_weather)
      (forced_uninstall PyNone).
Proof.
  split; [reflexivity |].
  intros H. destruct (H eq_refl) as (_ & Hrole & _).
  vm_compute in Hrole. discriminate.
Qed.

(** C3, amended. A forced uninstall never prompts.  When no remote call
    raises, the mutating calls of the run are, in this order, the
    integration-role removal exactly when a truthy account id was given,
    then the log-ingestion-function removal, then the license-key-secret
    removal, whatever the removals return; the completion line is
    printed. *)
Theorem uninstall_forced (env : Env) (c : UninstallConfig) :
  u_force c = true ->
  prompts (history (uninstall env c)) = 0 /\
  (all_calls_returned (history (uninstall env c)) = true ->
   mutations (history (uninstall env c)) =
     ((if truthy (u_nr_account_id c) then [KRemoveIntegrationRole] else [])
      ++ [KRemoveLogIngestionFunction; KRemoveLicenseKey])%list /\
   attempted KRemoveIntegrationRole (history (uninstall env c))
     = truthy (u_nr_account_id c) /\
   attempted KRemoveLogIngestionFunction (history (uninstall env c)) = true /\
   attempted KRemoveLicenseKey (history (uninstall env c)) = true /\
   reported (history (uninstall env c)) = Some true).
Proof.
  intros Hforce. name_run (uninstall env c). unfold uninstall.
  rewrite Hforce.
  steps env; intros ->; cbn; repeat split; intros; try discriminate;
    repeat split; reflexivity.
Qed.

Lemma uninstall_forced_witness :
  prompts (history (uninstall (world_env fair_weather)
                      (forced_uninstall (PyInt 1)))) = 0 /\
  mutations (history (uninstall (world_env fair_weather)
                        (forced_uninstall (PyInt 1)))) =
    [KRemoveIntegrationRole; KRemoveLogIngestionFunction; KRemoveLicenseKey] /\
  reported (history (uninstall (world_env fair_weather)
                       (forced_uninstall (PyInt 1)))) = Some true.
Proof.
  destruct (uninstall_forced (world_env fair_weather)
              (forced_uninstall (PyInt 1)) eq_refl) as [Hprompts Hrun].
  destruct (Hrun eq_refl) as (Hmut & _ & _ & _ & Hreport).
  repeat split; assumption.
Defined.

(** The function prompt is answered no, every other prompt yes. *)
Definition refuses (text : string) : World := {|
  w_permissions_ok := true;
  w_credentials_ok := true;
  w_role := w_role fair_weather;
  w_secret_ok := true;
  w_link_ok := true;
  w_feature_ok := true;
  w_function_ok := true;
  w_update_ok := true;
  w_auto_secret_ok := true;
  w_remove_role_ok := true;
  w_remove_function_ok := true;
  w_remove_secret_ok := true;
  w_answer := fun shown => negb (String.eqb shown text)
|}.

(** C4. When the log-ingestion-function prompt or the license-key-secret
    prompt of an uninstall run is answered no, the run ends there with
    click's [Abort]: the declined prompt is the last entry of the trace, so
    no removal call follows it, the license-key-secret removal is never
    called (nor the function removal when the function prompt was the one
    declined), and no completion report is printed. *)
Theorem uninstall_declined_aborts (env : Env) (c : UninstallConfig)
    (text : string) :
  text = function_prompt \/ text = secret_prompt ->
  existsb (declined text) (history (uninstall env c)) = true ->
  ending (uninstall env c) = Raise Abort /\
  final (history (uninstall env c)) = Some (Called (Confirm text) (Ok false)) /\
  attempted KRemoveLicenseKey (history (uninstall env c)) = false /\
  (text = function_prompt ->
   attempted KRemoveLogIngestionFunction (history (uninstall env c)) = false) /\
  reported (history (uninstall env c)) = None.
Proof.
  intros Htext. name_run (uninstall env c). unfold uninstall.
  steps env; intros ->; destruct Htext as [-> | ->]; vm_compute;
    intros; try discriminate; repeat split; intros; try reflexivity;
    discriminate.
Qed.

Lemma uninstall_declined_aborts_witness :
  ending (uninstall (world_env (refuses secret_prompt))
            (interactive_uninstall (PyInt 1))) = Raise Abort /\
  final (history (uninstall (world_env (refuses secret_prompt))
                    (interactive_uninstall (PyInt 1))))
    = Some (Called (Confirm secret_prompt) (Ok false)) /\
  attempted KRemoveLicenseKey
    (history (uninstall (world_env (refuses secret_prompt))
                (interactive_uninstall (PyInt 1)))) = false /\
  reported (history (uninstall (world_env (refuses secret_prompt))
                       (interactive_uninstall (PyInt 1)))) = None.
Proof.
  destruct (uninstall_declined_aborts (world_env (refuses secret_prompt))
              (interactive_uninstall (PyInt 1)) secret_prompt
              (or_intror eq_refl) eq_refl)
    as (Hend & Hlast & Hsecret & _ & Hreport).
  repeat split; assumption.
Defined.

(** ** update *)

(** A world that differs from fair weather in the outcome of the secret
    removal. *)
Definition secret_removal_fails : World := {|
  w_permissions_ok := true;
  w_credentials_ok := true;
  w_role := w_role fair_weather;
  w_secret_ok := true;
  w_link_ok := true;
  w_feature_ok := true;
  w_function_ok := true;
  w_update_ok := true;
  w_auto_secret_ok := true;
  w_remove_role_ok := true;
  w_remove_function_ok := true;
  w_remove_secret_ok := false;
  w_answer := fun _ => true
|}.

(** A world in which the in-place update of the ingestion function
    returns failure. *)
Definition function_update_fails : World := {|
  w_permissions_ok := true;
  w_credentials_ok := true;
  w_role := w_role fair_weather;
  w_secret_ok := true;
  w_link_ok := true;
  w_feature_ok := true;
  w_function_ok := true;
  w_update_ok := false;
  w_auto_secret_ok := true;
  w_remove_role_ok := true;
  w_remove_function_ok := true;
  w_remove_secret_ok := true;
  w_answer := fun _ => true
|}.

Definition update_without_secret : UpdateConfig := {|
  p_aws_profile := None;
  p_aws_region := None;
  p_aws_permissions_check := false;
  p_enable_logs := None;
  p_memory_size := None;
  p_timeout := None;
  p_role_name := None;
  p_enable_license_key_secret := false;
  p_tags := []
|}.

(** With the secret enabled, [update] asks for the auto-install only after
    a successful function update: Python's [and] does not evaluate its
    right operand when the left one is false. *)
Lemma update_auto_install_needs_function_update (env : Env)
    (c : UpdateConfig) :
  p_enable_license_key_secret c = true ->
  outcome KUpdateLogIngestion (history (update env c)) = Some false ->
  attempted KAutoInstallLicenseKey (history (update env c)) = false /\
  reported (history (update env c)) = Some false.
Proof.
  intros Hon. name_run (update env c). unfold update. rewrite Hon.
  steps env; intros ->; cbn; intros; try discriminate; split; reflexivity.
Qed.

(** C2. The run the sentence is about, evaluated: the secret feature is
    enabled and the function update returns failure; every call returns,
    yet the trace holds no auto-install call, and the run reports
    failure. *)
Theorem update_failed_function_skips_auto_install :
  p_enable_license_key_secret default_update = true /\
  outcome KUpdateLogIngestion
    (history (update (world_env function_update_fails) default_update))
    = Some false /\
  all_calls_returned
    (history (update (world_env function_update_fails) default_update))
    = true /\
  attempted KAutoInstallLicenseKey
    (history (update (world_env function_update_fails) default_update))
    = false /\
  calls (history (update (world_env function_update_fails) default_update))
    = [KSession; KUpdateLogIngestion].
Proof. repeat split. Qed.

(** The reading of the update sentence as it is written: with the secret
    feature disabled the removal is attempted and a removal that returns
    failure makes the reported success false. *)
Definition update_removal_counts (env : Env) (c : UpdateConfig) : Prop :=
  p_enable_license_key_secret c = false ->
  attempted KRemoveLicenseKey (history (update env c)) = true /\
  (outcome KRemoveLicenseKey (history (update env c)) = Some false ->
   reported (history (update env c)) = Some false).

(** C6, as written, fails: the removal returns failure and the run still
    reports [Update Complete]. *)
Lemma update_failed_removal_reported_complete :
  outcome KRemoveLicenseKey
    (history (update (world_env secret_removal_fails) update_without_secret))
    = Some false /\
  reported
    (history (update (world_env secret_removal_fails) update_without_secret))
    = Some true /\
  ~ update_removal_counts (world_env secret_removal_fails)
      update_without_secret.
Proof.
  repeat split.
  intros H. destruct (H eq_refl) as [_ Hreport].
  specialize (Hreport eq_refl). vm_compute in Hreport. discriminate.
Qed.

(** C6, amended. With the secret feature disabled, an update run in which
    no remote call raises attempts the license-key-secret removal whatever
    the function update returned, and the reported success is the outcome
    of the function update alone: the value the removal returns is not
    part of it. *)
Theorem update_secret_disabled (env : Env) (c : UpdateConfig) :
  p_enable_license_key_secret c = false ->
  all_calls_returned (history (update env c)) = true ->
  attempted KRemoveLicenseKey (history (update env c)) = true /\
  attempted KAutoInstallLicenseKey (history (update env c)) = false /\
  exists b,
    outcome KUpdateLogIngestion (history (update env c)) = Some b /\
    reported (history (update env c)) = Some b.
Proof.
  intros Hoff. name_run (update env c). unfold update. rewrite Hoff.
  steps env; intros ->; cbn; intros; try discriminate;
    repeat split; eexists; split; reflexivity.
Qed.

Lemma update_secret_disabled_witness :
  attempted KRemoveLicenseKey
    (history (update (world_env secret_removal_fails) update_without_secret))
    = true /\
  attempted KAutoInstallLicenseKey
    (history (update (world_env secret_removal_fails) update_without_secret))
    = false /\
  exists b,
    outcome KUpdateLogIngestion
      (history (update (world_env secret_removal_fails)
                  update_without_secret)) = Some b /\
    reported
      (history (update (world_env secret_removal_fails)
                  update_without_secret)) = Some b.
Proof.
  apply (update_secret_disabled (world_env secret_removal_fails)
           update_without_secret); reflexivity.
Defined.

(** ** install *)

(** A world in which only the creation of the license-key secret returns
    failure. *)
Definition secret_creation_fails : World := {|
  w_permissions_ok := true;
  w_credentials_ok := true;
  w_role := w_role fair_weather;
  w_secret_ok := false;
  w_link_ok := true;
  w_feature_ok := true;
  w_function_ok := true;
  w_update_ok := true;
  w_auto_secret_ok := true;
  w_remove_role_ok := true;
  w_remove_function_ok := true;
  w_remove_secret_ok := true;
  w_answer := fun _ => true
|}.

(** The outcome of a step as the aggregation sees it: a step that was not
    called does not count against success. *)
Definition passed (k : kind) (t : trace) : bool :=
  match outcome k t with
  | Some b => b
  | None => true
  end.

(** What [install] aggregates: in a run in which no remote call raises,
    the report is the conjunction of the linked-account creation, the
    feature enablement and the ingestion-function creation, each counted
    when it was called.  The value the secret creation returns does not
    enter. *)
Lemma install_report (env : Env) (verbose : bool) (c : InstallConfig) :
  all_calls_returned (history (install env verbose c)) = true ->
  attempted KInstallLicenseKey (history (install env verbose c))
    = i_enable_license_key_secret c /\
  attempted KInstallLogIngestion (history (install env verbose c)) = true /\
  reported (history (install env verbose c)) =
    Some (passed KCreateIntegrationAccount (history (install env verbose c))
          && passed KEnableLambdaIntegration (history (install env verbose c))
          && passed KInstallLogIngestion (history (install env verbose c))).
Proof.
  name_run (install env verbose c). unfold install.
  steps env; intros ->; cbn; intros; try discriminate; repeat split;
    now rewrite ?andb_true_r, ?andb_false_r.
Qed.

(** C1. The run the sentence is about, evaluated: the secret feature is
    enabled, the secret creation is attempted and returns failure, every
    other step returns success, and the run ends normally with the
    completion report [Install Complete]. *)
Theorem install_failed_secret_reported_complete :
  i_enable_license_key_secret default_install = true /\
  outcome KInstallLicenseKey
    (history (install (world_env secret_creation_fails) false default_install))
    = Some false /\
  all_calls_returned
    (history (install (world_env secret_creation_fails) false default_install))
    = true /\
  reported
    (history (install (world_env secret_creation_fails) false default_install))
    = Some true /\
  final
    (history (install (world_env secret_creation_fails) false default_install))
    = Some (Printed (Done "Install Complete")) /\
  ending (install (world_env secret_creation_fails) false default_install)
    = Ok tt.
Proof. repeat split. Qed.

(** *** The role comes before the link *)

Definition roleref_eqb (a b : RoleRef) : bool :=
  match a, b with
  | RoleArn x, RoleArn y => String.eqb x y
  end.

Lemma roleref_eqb_eq (a b : RoleRef) : roleref_eqb a b = true <-> a = b.
Proof.
  destruct a as [x], b as [y]. simpl. rewrite String.eqb_eq.
  split; [intros -> | intros [= ->]]; reflexivity.
Qed.

(** Scans a trace from its start: [seen] collects the roles that completed
    role-creation calls have returned so far; every link-creation call has
    to carry one of them. *)
Fixpoint links_follow_roles (seen : list RoleRef) (t : trace) : bool :=
  match t with
  | [] => true
  | e :: rest =>
      match link_role e with
      | Some role =>
          existsb (roleref_eqb role) seen && links_follow_roles seen rest
      | None =>
          links_follow_roles
            (match role_created e with
             | Some role => role :: seen
             | None => seen
             end) rest
      end
  end.

Lemma links_follow_roles_sound (t : trace) :
  forall seen, links_follow_roles seen t = true ->
  forall before e after role,
    t = (before ++ e :: after)%list ->
    link_role e = Some role ->
    In role seen \/
    exists e0, In e0 before /\ role_created e0 = Some role.
Proof.
  induction t as [| e1 t IH]; intros seen Hscan before e after role Ht Hlink.
  - destruct before; discriminate.
  - destruct before as [| b before]; simpl in Ht; injection Ht as <- ->.
    + simpl in Hscan. rewrite Hlink in Hscan.
      apply andb_true_iff in Hscan as [Hin _].
      apply existsb_exists in Hin as [r [Hr Heq]].
      apply roleref_eqb_eq in Heq. subst r. now left.
    + simpl in Hscan. destruct (link_role e1) as [r1 |] eqn:Hl1.
      * apply andb_true_iff in Hscan as [_ Hscan].
        destruct (IH _ Hscan _ _ _ _ eq_refl Hlink) as [Hin | [e0 [Hin He0]]];
          [now left | right; exists e0; split; [now right | exact He0]].
      * destruct (IH _ Hscan _ _ _ _ eq_refl Hlink) as [Hin | [e0 [Hin He0]]].
        -- destruct (role_created e1) as [r1 |] eqn:Hr1.
           ++ destruct Hin as [<- | Hin]; [| now left].
              right. exists e1. split; [now left | exact Hr1].
           ++ now left.
        -- right. exists e0. split; [now right | exact He0].
Qed.

Lemma install_links_follow_roles (env : Env) (verbose : bool)
    (c : InstallConfig) :
  links_follow_roles [] (history (install env verbose c)) = true.
Proof.
  name_run (install env verbose c). unfold install.
  steps env; intros ->; cbn; try reflexivity;
    match goal with
    | r : RoleRef |- _ =>
        destruct r; cbn; now rewrite String.eqb_refl
    end.
Qed.

(** C5. In every install run, whatever the environment answers, a
    linked-account-creation call comes strictly after a role-creation call
    that has completed and returned a role, and it is given exactly that
    role: no link is created before the role step is over, nor when the
    role step returned null or raised. *)
Theorem install_role_before_link (env : Env) (verbose : bool)
    (c : InstallConfig) (before after : trace) (e : event) (role : RoleRef) :
  history (install env verbose c) = (before ++ e :: after)%list ->
  link_role e = Some role ->
  exists e0, In e0 before /\ role_created e0 = Some role.
Proof.
  intros Hsplit Hlink.
  destruct (links_follow_roles_sound _ []
              (install_links_follow_roles env verbose c)
              before e after role Hsplit Hlink) as [[] | H].
  exact H.
Qed.

Lemma install_role_before_link_witness :
  exists e0,
    In e0 (firstn 13 (history (install (world_env fair_weather) false
                                 default_install))) /\
    role_created e0 =
      Some (RoleArn "arn:aws:iam::123456789012:role/NewRelicLambdaIntegrationRole_1").
Proof.
  apply (install_role_before_link (world_env fair_weather) false
           default_install
           (firstn 13 (history (install (world_env fair_weather) false
                                  default_install)))
           (skipn 14 (history (install (world_env fair_weather) false
                                 default_install)))
           (Called
              (CreateIntegrationAccount (ClientRef 0) (PyInt 1)
                 "New Relic Lambda Integration - 123456789012"
                 (RoleArn "arn:aws:iam::123456789012:role/NewRelicLambdaIntegrationRole_1"))
              (Ok true))
           (RoleArn "arn:aws:iam::123456789012:role/NewRelicLambdaIntegrationRole_1")).
  - reflexivity.
  - reflexivity.
Defined.

(** *** Invalid credentials *)

(** A platform that accepts exactly the API key [good] and rejects any
    other with [AuthenticationError]; every other operation answers as in
    the world [w]. *)
Definition key_checking (good : string) (w : World) : Env :=
  fun A t o =>
    match o in op T return result T with
    | ValidateGqlCredentials _ key _ =>
        if String.eqb key good then Ok (ClientRef 0)
        else Raise AuthenticationError
    | other => world_env w _ t other
    end.

Example install_with_the_good_key :
  reported (history (install (key_checking "api-key" fair_weather) false
                       default_install)) = Some true.
Proof. reflexivity. Qed.




(** A mutating call is only ever made after a validation that did not
    fail: a run that the session construction or the permission pre-check
    stops before the validation makes no mutating call either. *)
Lemma install_mutation_needs_validation (env : Env) (verbose : bool)
    (c : InstallConfig) :
  existsb is_mutation (history (install env verbose c)) = true ->
  attempted KValidateGqlCredentials (history (install env verbose c)) = true /\
  existsb validation_failed (history (install env verbose c)) = false.
Proof.
  name_run (install env verbose c). unfold install.
  steps env; intros ->; cbn; intros; try discriminate; split; reflexivity.
Qed.

(** *** No role *)

Definition no_role : World := {|
  w_permissions_ok := true;
  w_credentials_ok := true;
  w_role := None;
  w_secret_ok := false;
  w_link_ok := true;
  w_feature_ok := true;
  w_function_ok := true;
  w_update_ok := true;
  w_auto_secret_ok := true;
  w_remove_role_ok := true;
  w_remove_function_ok := true;
  w_remove_secret_ok := true;
  w_answer := fun _ => true
|}.

(** C10. When the role-creation call of an install run returns null, the
    linked-account creation and the feature enablement are not called, and,
    in a run where no remote call raises, the reported success is the
    boolean the log-ingestion-function creation returned. *)
Theorem install_without_role (env : Env) (verbose : bool)
    (c : InstallConfig) :
  existsb role_missing (history (install env verbose c)) = true ->
  attempted KCreateIntegrationAccount (history (install env verbose c))
    = false /\
  attempted KEnableLambdaIntegration (history (install env verbose c))
    = false /\
  (all_calls_returned (history (install env verbose c)) = true ->
   exists b,
     outcome KInstallLogIngestion (history (install env verbose c)) = Some b /\
     reported (history (install env verbose c)) = Some b).
Proof.
  name_run (install env verbose c). unfold install.
  steps env; intros ->; cbn; intros; try discriminate;
    repeat split; intros; try discriminate; eexists; split; reflexivity.
Qed.

Lemma install_without_role_witness :
  existsb role_missing
    (history (install (world_env no_role) false default_install)) = true /\
  attempted KCreateIntegrationAccount
    (history (install (world_env no_role) false default_install)) = false /\
  attempted KEnableLambdaIntegration
    (history (install (world_env no_role) false default_install)) = false /\
  exists b,
    outcome KInstallLogIngestion
      (history (install (world_env no_role) false default_install))
    = Some b /\
    reported (history (install (world_env no_role) false default_install))
    = Some b.
Proof.
  destruct (install_without_role (world_env no_role) false default_install
              eq_refl) as (Hlink & Hfeature & Hreport).
  repeat split; try assumption. apply Hreport. reflexivity.
Defined.

(** * Further properties of the three commands *)

(** ** Exceptions are not caught *)

(** The exception a call entry ended in. *)
Definition raised (e : event) : option exn :=
  match e with
  | Called _ (Raise x) => Some x
  | _ => None
  end.

(** The exception of the last entry of the trace, when that entry is a call
    that raised. *)
Definition raised_last (t : trace) : option exn :=
  match final t with
  | Some e => raised e
  | None => None
  end.

(** Permissions are missing: the pre-checks raise. *)
Definition no_permissions : World := {|
  w_permissions_ok := false;
  w_credentials_ok := true;
  w_role := w_role fair_weather;
  w_secret_ok := true;
  w_link_ok := true;
  w_feature_ok := true;
  w_function_ok := true;
  w_update_ok := true;
  w_auto_secret_ok := true;
  w_remove_role_ok := true;
  w_remove_function_ok := true;
  w_remove_secret_ok := true;
  w_answer := fun _ => true
|}.

Definition checked_install : InstallConfig := {|
  i_aws_profile := Some "default";
  i_aws_region := Some "us-east-1";
  i_aws_permissions_check := true;
  i_aws_role_policy := None;
  i_enable_logs := true;
  i_memory_size := 256;
  i_linked_account_name := Some "production";
  i_nr_account_id := PyStr "1";
  i_nr_api_key := "api-key";
  i_nr_region := "us";
  i_timeout := 60;
  i_role_name := None;
  i_enable_license_key_secret := true;
  i_integration_arn := None;
  i_tags := [("team", "observability")]
|}.

Definition checked_uninstall : UninstallConfig := {|
  u_aws_profile := None;
  u_aws_region := None;
  u_aws_permissions_check := true;
  u_nr_account_id := PyInt 1;
  u_force := false
|}.

Definition checked_update : UpdateConfig := {|
  p_aws_profile := None;
  p_aws_region := None;
  p_aws_permissions_check := true;
  p_enable_logs := Some true;
  p_memory_size := Some 256%Z;
  p_timeout := None;
  p_role_name := None;
  p_enable_license_key_secret := true;
  p_tags := [("team", "observability")]
|}.

(** X1. [install] catches nothing: when a remote call of the run raises,
    that call is the last entry of the trace and the command ends with the
    very exception it raised. *)
Theorem install_propagates_exceptions (env : Env) (verbose : bool)
    (c : InstallConfig) :
  all_calls_returned (history (install env verbose c)) = false ->
  exists e,
    raised_last (history (install env verbose c)) = Some e /\
    ending (install env verbose c) = Raise e.
Proof.
  name_run (install env verbose c). unfold install.
  steps env; intros ->; cbn; intros; try discriminate;
    eexists; split; reflexivity.
Qed.

Lemma install_propagates_exceptions_witness :
  exists e,
    raised_last (history (install (world_env no_permissions) false
                            checked_install)) = Some e /\
    ending (install (world_env no_permissions) false checked_install)
    = Raise e.
Proof.
  apply (install_propagates_exceptions (world_env no_permissions) false
           checked_install).
  reflexivity.
Defined.

(** X2. [uninstall] catches nothing either: a raising remote call is the
    last entry of the trace and its exception ends the command. *)
Theorem uninstall_propagates_exceptions (env : Env) (c : UninstallConfig) :
  all_calls_returned (history (uninstall env c)) = false ->
  exists e,
    raised_last (history (uninstall env c)) = Some e /\
    ending (uninstall env c) = Raise e.
Proof.
  name_run (uninstall env c). unfold uninstall.
  steps env; intros ->; cbn; intros; try discriminate;
    eexists; split; reflexivity.
Qed.

Lemma uninstall_propagates_exceptions_witness :
  exists e,
    raised_last (history (uninstall (world_env no_permissions)
                            checked_uninstall)) = Some e /\
    ending (uninstall (world_env no_permissions) checked_uninstall)
    = Raise e.
Proof.
  apply (uninstall_propagates_exceptions (world_env no_permissions)
           checked_uninstall).
  reflexivity.
Defined.

(** X3. [update] catches nothing: a raising remote call is the last entry
    of the trace and its exception ends the command. *)
Theorem update_propagates_exceptions (env : Env) (c : UpdateConfig) :
  all_calls_returned (history (update env c)) = false ->
  exists e,
    raised_last (history (update env c)) = Some e /\
    ending (update env c) = Raise e.
Proof.
  name_run (update env c). unfold update.
  steps env; intros ->; cbn; intros; try discriminate;
    eexists; split; reflexivity.
Qed.

Lemma update_propagates_exceptions_witness :
  exists e,
    raised_last (history (update (world_env no_permissions) checked_update))
    = Some e /\
    ending (update (world_env no_permissions) checked_update) = Raise e.
Proof.
  apply (update_propagates_exceptions (world_env no_permissions)
           checked_update).
  reflexivity.
Defined.

(** ** install: the order of the calls and the report *)

(** The calls of an install run in which every call returns, read off the
    configuration and whether the role step returned a role. *)
Definition install_plan (c : InstallConfig) (role_returned : bool)
  : list kind :=
  ([KSession]
   ++ (if i_aws_permissions_check c then [KEnsureInstallPermissions] else [])
   ++ [KValidateGqlCredentials; KRetrieveLicenseKey]
   ++ (match nonempty (i_linked_account_name c) with
       | Some _ => []
       | None => [KGetAwsAccountId]
       end)
   ++ [KValidateLinkedAccount; KCreateIntegrationRole]
   ++ (if i_enable_license_key_secret c then [KInstallLicenseKey] else [])
   ++ (if role_returned
       then [KCreateIntegrationAccount; KEnableLambdaIntegration]
       else [])
   ++ [KInstallLogIngestion])%list.

(** X4. In an install run in which every remote call returns, the calls
    are made once each and in this order: session, permission pre-check
    (when enabled), credential validation, license-key retrieval, AWS
    account-id lookup (only when no truthy link name was supplied),
    linked-account validation, role creation, secret creation (when
    enabled), link creation and feature enablement (when the role step
    returned a role), ingestion-function creation. *)
Theorem install_call_order (env : Env) (verbose : bool) (c : InstallConfig) :
  all_calls_returned (history (install env verbose c)) = true ->
  calls (history (install env verbose c)) =
    install_plan c
      (negb (existsb role_missing (history (install env verbose c)))).
Proof.
  unfold install_plan.
  name_run (install env verbose c). unfold install.
  steps env; intros ->; cbn; intros; try discriminate; reflexivity.
Qed.

Lemma install_call_order_witness :
  calls (history (install (world_env no_role) false checked_install)) =
    [KSession; KEnsureInstallPermissions; KValidateGqlCredentials;
     KRetrieveLicenseKey; KValidateLinkedAccount; KCreateIntegrationRole;
     KInstallLicenseKey; KInstallLogIngestion].
Proof.
  exact (install_call_order (world_env no_role) false checked_install
           eq_refl).
Defined.

(** X5. In an install run in which every remote call returns, the reported
    success is the conjunction of exactly three outcomes: the link
    creation and the feature enablement (each counted when it was called)
    and the ingestion-function creation.  The secret creation is attempted
    exactly when the feature is enabled, and its outcome is not among
    them. *)
Theorem install_success_is_three_steps (env : Env) (verbose : bool)
    (c : InstallConfig) :
  all_calls_returned (history (install env verbose c)) = true ->
  reported (history (install env verbose c)) =
    Some (passed KCreateIntegrationAccount (history (install env verbose c))
          && passed KEnableLambdaIntegration (history (install env verbose c))
          && passed KInstallLogIngestion (history (install env verbose c))) /\
  attempted KInstallLicenseKey (history (install env verbose c))
    = i_enable_license_key_secret c.
Proof.
  intros H. destruct (install_report env verbose c H) as (Hs & _ & Hr).
  split; assumption.
Qed.

Definition feature_fails : World := {|
  w_permissions_ok := true;
  w_credentials_ok := true;
  w_role := w_role fair_weather;
  w_secret_ok := true;
  w_link_ok := true;
  w_feature_ok := false;
  w_function_ok := true;
  w_update_ok := true;
  w_auto_secret_ok := false;
  w_remove_role_ok := false;
  w_remove_function_ok := false;
  w_remove_secret_ok := false;
  w_answer := fun _ => true
|}.

Lemma install_success_is_three_steps_witness :
  reported (history (install (world_env feature_fails) false checked_install))
    = Some (passed KCreateIntegrationAccount
              (history (install (world_env feature_fails) false
                          checked_install))
            && passed KEnableLambdaIntegration
                 (history (install (world_env feature_fails) false
                             checked_install))
            && passed KInstallLogIngestion
                 (history (install (world_env feature_fails) false
                             checked_install))) /\
  attempted KInstallLicenseKey
    (history (install (world_env feature_fails) false checked_install))
    = i_enable_license_key_secret checked_install.
Proof.
  exact (install_success_is_three_steps (world_env feature_fails) false
           checked_install eq_refl).
Defined.

Lemma py_join_raises (sep : string) (items : list pyval) (e : exn) :
  py_join sep items = Raise e -> e = TypeError.
Proof.
  induction items as [| item rest IH]; simpl; [discriminate |].
  destruct item; try (intros [= <-]; reflexivity).
  destruct rest as [| next more]; [discriminate |].
  destruct (py_join sep (next :: more)); [discriminate |].
  intros [= <-]. now apply IH.
Qed.

Definition install_failure_line : event :=
  Printed (Failure "Install Incomplete. See messages above for details.").

(** X6. An install run in which every remote call returns ends in one of
    two ways.  Either the failure summary is its last line and the process
    exits with code 1, or [Install Complete] was printed and the command
    returns normally; the one exception to a normal return is a
    [TypeError] from the verbose hint. *)
Theorem install_exit_status (env : Env) (verbose : bool) (c : InstallConfig) :
  all_calls_returned (history (install env verbose c)) = true ->
  (reported (history (install env verbose c)) = Some false /\
   ending (install env verbose c) = Raise (Exit 1) /\
   final (history (install env verbose c)) = Some install_failure_line) \/
  (reported (history (install env verbose c)) = Some true /\
   (ending (install env verbose c) = Ok tt \/
    verbose = true /\ ending (install env verbose c) = Raise TypeError)).
Proof.
  name_run (install env verbose c). unfold install.
  steps env; intros ->; cbn; intros; try discriminate;
    try match goal with
        | H : py_join _ _ = Raise _ |- _ => apply py_join_raises in H; subst
        end;
    solve [ left; repeat split | right; split; auto ].
Qed.

Lemma install_exit_status_witness :
  (reported (history (install (world_env feature_fails) false
                        checked_install)) = Some false /\
   ending (install (world_env feature_fails) false checked_install)
     = Raise (Exit 1) /\
   final (history (install (world_env feature_fails) false checked_install))
     = Some install_failure_line) \/
  (reported (history (install (world_env feature_fails) false
                        checked_install)) = Some true /\
   (ending (install (world_env feature_fails) false checked_install) = Ok tt \/
    false = true /\
    ending (install (world_env feature_fails) false checked_install)
      = Raise TypeError)).
Proof.
  exact (install_exit_status (world_env feature_fails) false checked_install
           eq_refl).
Defined.

(** ** install: the verbose hint *)

(** The text of an option value that is a [str]. *)
Definition text_of (v : pyval) : option string :=
  match v with
  | PyStr s => Some s
  | _ => None
  end.

Definition next_steps : string :=
  newline
  ++ "Next steps: Add the New Relic layers to your Lambda functions with "
  ++ "the below command." ++ newline.

(** The layer-installation command line the hint shows. *)
Definition hint_command (c : InstallConfig) (account : string) : string :=
  "$ newrelic-lambda layers install --function all --nr-account-id "
  ++ account
  ++ match nonempty (i_aws_profile c), nonempty (i_aws_region c) with
     | Some p, Some r => " --aws-profile " ++ p ++ " --aws-region " ++ r
     | Some p, None => " --aws-profile " ++ p
     | None, Some r => " --aws-region " ++ r
     | None, None => ""
     end.

(** The items [install] joins into the hint. *)
Definition hint_items (c : InstallConfig) : list pyval :=
  let command :=
    [PyStr "$"; PyStr "newrelic-lambda"; PyStr "layers";
     PyStr "install"; PyStr "--function"; PyStr "all";
     PyStr "--nr-account-id"; i_nr_account_id c] in
  let command :=
    match nonempty (i_aws_profile c) with
    | Some p => (command ++ [PyStr ("--aws-profile " ++ p)])%list
    | None => command
    end in
  match nonempty (i_aws_region c) with
  | Some r => (command ++ [PyStr ("--aws-region " ++ r)])%list
  | None => command
  end.

Lemma append_assoc (a b c : string) : (a ++ b) ++ c = a ++ (b ++ c).
Proof. induction a as [| ch a IH]; simpl; [reflexivity | now rewrite IH]. Qed.

Lemma append_nil_r (a : string) : a ++ "" = a.
Proof. induction a as [| ch a IH]; simpl; [reflexivity | now rewrite IH]. Qed.

Lemma py_join_needs_text (sep : string) (items : list pyval) (v : pyval) :
  In v items -> text_of v = None -> py_join sep items = Raise TypeError.
Proof.
  intros Hin Hv. induction items as [| item rest IH]; [destruct Hin |].
  destruct Hin as [-> | Hin].
  - destruct v; try discriminate; reflexivity.
  - simpl. destruct item; try reflexivity.
    destruct rest as [| next more]; [destruct Hin |].
    now rewrite (IH Hin).
Qed.

Lemma hint_items_join (c : InstallConfig) (account : string) :
  text_of (i_nr_account_id c) = Some account ->
  py_join " " (hint_items c) = Ok (hint_command c account).
Proof.
  unfold hint_items, hint_command.
  destruct (i_nr_account_id c) as [| n | s]; try discriminate.
  intros [= ->].
  destruct (nonempty (i_aws_profile c)), (nonempty (i_aws_region c)); cbn;
    rewrite ?append_assoc, ?append_nil_r; reflexivity.
Qed.

Lemma hint_items_need_text (c : InstallConfig) :
  text_of (i_nr_account_id c) = None ->
  py_join " " (hint_items c) = Raise TypeError.
Proof.
  intros H. apply py_join_needs_text with (v := i_nr_account_id c); [| exact H].
  unfold hint_items.
  destruct (nonempty (i_aws_profile c)), (nonempty (i_aws_region c)); cbn;
    tauto.
Qed.

(** X7. A verbose install that reports success with an account id that is
    a [str] returns normally, and the last line it prints is the layer
    command: the fixed words, the account id, then [--aws-profile] and
    [--aws-region] for each of the two options that is truthy, separated by
    single spaces. *)
Theorem install_verbose_hint (env : Env) (c : InstallConfig)
    (account : string) :
  text_of (i_nr_account_id c) = Some account ->
  reported (history (install env true c)) = Some true ->
  ending (install env true c) = Ok tt /\
  final (history (install env true c))
    = Some (Printed (Echo (hint_command c account))).
Proof.
  intros Haccount. pose proof (hint_items_join c account Haccount) as Hjoin.
  name_run (install env true c). unfold install.
  steps env; intros ->; cbn; intros; try discriminate;
    match goal with
    | H : py_join _ _ = ?r |- _ =>
        assert (Hr : r = Ok (hint_command c account))
          by (rewrite <- Hjoin; symmetry; exact H);
        inversion Hr; subst
    end;
    split; reflexivity.
Qed.

Lemma install_verbose_hint_witness :
  ending (install (world_env fair_weather) true checked_install) = Ok tt /\
  final (history (install (world_env fair_weather) true checked_install))
    = Some (Printed (Echo
        "$ newrelic-lambda layers install --function all --nr-account-id 1 --aws-profile default --aws-region us-east-1")).
Proof.
  exact (install_verbose_hint (world_env fair_weather) checked_install "1"
           eq_refl eq_refl).
Defined.

(** X8. A verbose install that reports success with an account id that is
    not a [str] (an [int], or nothing) ends with a [TypeError] raised by the
    join of the hint command: [Install Complete] and the next-steps text
    are printed, the command line is not. *)
Theorem install_verbose_hint_needs_text (env : Env) (c : InstallConfig) :
  text_of (i_nr_account_id c) = None ->
  reported (history (install env true c)) = Some true ->
  ending (install env true c) = Raise TypeError /\
  final (history (install env true c)) = Some (Printed (Echo next_steps)).
Proof.
  intros Haccount. pose proof (hint_items_need_text c Haccount) as Hjoin.
  name_run (install env true c). unfold install.
  steps env; intros ->; cbn; intros; try discriminate;
    match goal with
    | H : py_join _ _ = ?r |- _ =>
        assert (Hr : r = Raise TypeError)
          by (rewrite <- Hjoin; symmetry; exact H);
        inversion Hr; subst
    end;
    split; reflexivity.
Qed.

Lemma install_verbose_hint_needs_text_witness :
  ending (install (world_env fair_weather) true default_install)
    = Raise TypeError /\
  final (history (install (world_env fair_weather) true default_install))
    = Some (Printed (Echo next_steps)).
Proof.
  exact (install_verbose_hint_needs_text (world_env fair_weather)
           default_install eq_refl eq_refl).
Defined.

(** ** install: what the calls are given *)

(** The first entry of the trace for which [f] gives a value. *)
Fixpoint first_of {A : Type} (f : event -> option A) (t : trace)
  : option A :=
  match t with
  | [] => None
  | e :: rest =>
      match f e with
      | Some a => Some a
      | None => first_of f rest
      end
  end.

(** The linked-account name a call was given. *)
Definition linked_name (e : event) : option string :=
  match e with
  | Called o _ =>
      match o with
      | ValidateLinkedAccount _ _ name
      | CreateIntegrationAccount _ _ name _
      | EnableLambdaIntegration _ _ name => Some name
      | _ => None
      end
  | Printed _ => None
  end.

(** The AWS account id the lookup returned. *)
Definition account_id_found (e : event) : option string :=
  match e with
  | Called o r =>
      match o in op T return result T -> option string with
      | GetAwsAccountId _ =>
          fun r => match r with Ok id => Some id | Raise _ => None end
      | _ => fun _ => None
      end r
  | Printed _ => None
  end.

(** The name of the link: the supplied one when it is truthy, otherwise
    the default built from the AWS account id the lookup returned. *)
Definition link_name (c : InstallConfig) (t : trace) : option string :=
  match nonempty (i_linked_account_name c) with
  | Some name => Some name
  | None =>
      match first_of account_id_found t with
      | Some id => Some ("New Relic Lambda Integration - " ++ id)
      | None => None
      end
  end.

Definition named_as (c : InstallConfig) (t : trace) (e : event) : Prop :=
  forall name, linked_name e = Some name -> link_name c t = Some name.

Lemma install_names_agree (env : Env) (verbose : bool) (c : InstallConfig) :
  Forall (named_as c (history (install env verbose c)))
    (history (install env verbose c)).
Proof.
  unfold named_as, link_name.
  name_run (install env verbose c). unfold install.
  steps env; intros ->; cbn;
    repeat (apply Forall_cons;
              [ cbn; intros ? Hflow;
                first [ discriminate Hflow | exact Hflow ] |]);
    apply Forall_nil.
Qed.

(** X9. Every call of an install run that takes a linked-account name
    (the validation of the link, its creation, the feature enablement) is
    given the same name: the supplied one when it is truthy, and otherwise
    [New Relic Lambda Integration - ] followed by the AWS account id the
    lookup returned (an empty supplied name counts as none). *)
Theorem install_linked_account_name (env : Env) (verbose : bool)
    (c : InstallConfig) (e : event) (name : string) :
  In e (history (install env verbose c)) ->
  linked_name e = Some name ->
  link_name c (history (install env verbose c)) = Some name.
Proof.
  intros Hin Hname.
  pose proof (install_names_agree env verbose c) as H.
  rewrite Forall_forall in H. exact (H e Hin name Hname).
Qed.

Definition unnamed_install : InstallConfig := {|
  i_aws_profile := None;
  i_aws_region := None;
  i_aws_permissions_check := false;
  i_aws_role_policy := None;
  i_enable_logs := false;
  i_memory_size := 128;
  i_linked_account_name := Some "";
  i_nr_account_id := PyInt 1;
  i_nr_api_key := "api-key";
  i_nr_region := "us";
  i_timeout := 30;
  i_role_name := None;
  i_enable_license_key_secret := true;
  i_integration_arn := None;
  i_tags := []
|}.

Lemma install_linked_account_name_witness :
  link_name unnamed_install
    (history (install (world_env fair_weather) false unnamed_install))
  = Some "New Relic Lambda Integration - 123456789012".
Proof.
  apply (install_linked_account_name (world_env fair_weather) false
           unnamed_install
           (Called (EnableLambdaIntegration (ClientRef 0) (PyInt 1)
                      "New Relic Lambda Integration - 123456789012")
              (Ok true))).
  - apply nth_error_In with (n := 15). reflexivity.
  - reflexivity.
Defined.

(** The handles and the key a call was given. *)
Definition session_given (e : event) : option Session :=
  match e with
  | Called o _ =>
      match o with
      | EnsureIntegrationInstallPermissions s
      | EnsureIntegrationUninstallPermissions s
      | GetAwsAccountId s
      | ValidateLinkedAccount s _ _
      | CreateIntegrationRole s _ _ _ _
      | InstallLicenseKey s _ _
      | InstallLogIngestion s _ _ _ _ _ _
      | RemoveIntegrationRole s _
      | RemoveLogIngestionFunction s
      | RemoveLicenseKey s
      | UpdateLogIngestion s _ _ _ _ _ _
      | AutoInstallLicenseKey s _ => Some s
      | _ => None
      end
  | Printed _ => None
  end.

Definition client_given (e : event) : option GqlClient :=
  match e with
  | Called o _ =>
      match o with
      | RetrieveLicenseKey g
      | ValidateLinkedAccount _ g _
      | CreateIntegrationAccount g _ _ _
      | EnableLambdaIntegration g _ _ => Some g
      | _ => None
      end
  | Printed _ => None
  end.

Definition license_key_given (e : event) : option string :=
  match e with
  | Called o _ =>
      match o with
      | InstallLicenseKey _ key _
      | InstallLogIngestion _ key _ _ _ _ _ => Some key
      | _ => None
      end
  | Printed _ => None
  end.

(** What the calls that produce them returned. *)
Definition session_opened (e : event) : option Session :=
  match e with
  | Called o r =>
      match o in op T return result T -> option Session with
      | Boto3Session _ _ =>
          fun r => match r with Ok s => Some s | Raise _ => None end
      | _ => fun _ => None
      end r
  | Printed _ => None
  end.

Definition client_validated (e : event) : option GqlClient :=
  match e with
  | Called o r =>
      match o in op T return result T -> option GqlClient with
      | ValidateGqlCredentials _ _ _ =>
          fun r => match r with Ok g => Some g | Raise _ => None end
      | _ => fun _ => None
      end r
  | Printed _ => None
  end.

Definition license_key_retrieved (e : event) : option string :=
  match e with
  | Called o r =>
      match o in op T return result T -> option string with
      | RetrieveLicenseKey _ =>
          fun r => match r with Ok key => Some key | Raise _ => None end
      | _ => fun _ => None
      end r
  | Printed _ => None
  end.

(** The entry [e] only uses the session, the client and the license key
    that the trace [t] produced. *)
Definition supplied_from (t : trace) (e : event) : Prop :=
  (forall s, session_given e = Some s -> first_of session_opened t = Some s) /\
  (forall g, client_given e = Some g -> first_of client_validated t = Some g) /\
  (forall key, license_key_given e = Some key ->
               first_of license_key_retrieved t = Some key).

Ltac flows :=
  intros ? Hflow; first [ discriminate Hflow | exact Hflow ].

Ltac supplied :=
  repeat (apply Forall_cons; [ cbn; repeat split; flows |]);
  apply Forall_nil.

Lemma install_supplies (env : Env) (verbose : bool) (c : InstallConfig) :
  Forall (supplied_from (history (install env verbose c)))
    (history (install env verbose c)).
Proof.
  unfold supplied_from.
  name_run (install env verbose c). unfold install.
  steps env; intros ->; cbn; supplied.
Qed.

(** X10. Every call of an install run is given what the run itself
    obtained: the session [boto3.Session] returned, the client the
    credential validation returned, and, for the secret and the ingestion
    function, the license key the retrieval returned. *)
Theorem install_uses_what_it_obtained (env : Env) (verbose : bool)
    (c : InstallConfig) (e : event) :
  In e (history (install env verbose c)) ->
  supplied_from (history (install env verbose c)) e.
Proof.
  intros Hin. pose proof (install_supplies env verbose c) as H.
  rewrite Forall_forall in H. exact (H e Hin).
Qed.

Lemma install_uses_what_it_obtained_witness :
  supplied_from
    (history (install (world_env fair_weather) false default_install))
    (Called (InstallLogIngestion (SessionRef 0) "license-key" false 128 30
               None [])
       (Ok true)).
Proof.
  apply (install_uses_what_it_obtained (world_env fair_weather) false
           default_install).
  apply nth_error_In with (n := 17). reflexivity.
Defined.

(** ** What install and uninstall never call *)

Lemma forallb_calls_exclude (Q : event -> bool) (bad : kind -> bool)
    (t : trace) :
  (forall e, Q e = true ->
             match e with
             | Called o _ => bad (op_kind o)
             | Printed _ => false
             end = false) ->
  forallb Q t = true -> existsb bad (calls t) = false.
Proof.
  intros HQ. induction t as [| e t IH]; simpl; [easy |].
  intros H. apply andb_true_iff in H as [He Ht].
  specialize (HQ e He). destruct e as [A o r | line]; simpl.
  - now rewrite HQ, (IH Ht).
  - exact (IH Ht).
Qed.

(** The calls [install] is made of. *)
Definition install_call (e : event) : bool :=
  match e with
  | Called o _ =>
      match op_kind o with
      | KSession | KEnsureInstallPermissions | KValidateGqlCredentials
      | KRetrieveLicenseKey | KGetAwsAccountId | KValidateLinkedAccount
      | KCreateIntegrationRole | KInstallLicenseKey
      | KCreateIntegrationAccount | KEnableLambdaIntegration
      | KInstallLogIngestion => true
      | _ => false
      end
  | Printed _ => true
  end.

Lemma install_frame (env : Env) (verbose : bool) (c : InstallConfig) :
  writes_only install_call (install env verbose c).
Proof. unfold install, echo, done, failure. frame. Qed.

(** The calls [uninstall] is made of. *)
Definition uninstall_call (e : event) : bool :=
  match e with
  | Called o _ =>
      match op_kind o with
      | KSession | KEnsureUninstallPermissions | KConfirm
      | KRemoveIntegrationRole | KRemoveLogIngestionFunction
      | KRemoveLicenseKey => true
      | _ => false
      end
  | Printed _ => true
  end.

Lemma uninstall_frame (env : Env) (c : UninstallConfig) :
  writes_only uninstall_call (uninstall env c).
Proof. unfold uninstall, confirm, echo, done, failure. frame. Qed.

(** Operations that remove a resource or change it in place, the prompt,
    and the uninstall pre-check. *)
Definition removes_or_prompts (k : kind) : bool :=
  match k with
  | KRemoveIntegrationRole | KRemoveLogIngestionFunction | KRemoveLicenseKey
  | KUpdateLogIngestion | KAutoInstallLicenseKey | KConfirm
  | KEnsureUninstallPermissions => true
  | _ => false
  end.

(** Operations that create or change a resource, and the platform
    calls. *)
Definition creates_or_updates (k : kind) : bool :=
  match k with
  | KCreateIntegrationRole | KInstallLicenseKey | KCreateIntegrationAccount
  | KEnableLambdaIntegration | KInstallLogIngestion | KUpdateLogIngestion
  | KAutoInstallLicenseKey | KValidateGqlCredentials | KRetrieveLicenseKey
  | KValidateLinkedAccount | KEnsureInstallPermissions => true
  | _ => false
  end.

(** X11. Whatever the environment answers, [install] never prompts, never
    calls a removal, the in-place function update or the secret
    auto-install, and never runs the uninstall permission pre-check: every
    call of the run is one of its own eleven operations. *)
Theorem install_only_creates (env : Env) (verbose : bool) (c : InstallConfig) :
  forallb install_call (history (install env verbose c)) = true /\
  existsb removes_or_prompts (calls (history (install env verbose c))) = false.
Proof.
  pose proof (writes_only_history _ _ _ (install_frame env verbose c)) as H.
  split; [exact H |].
  apply forallb_calls_exclude with (Q := install_call); [| exact H].
  intros [A o r | line]; [destruct o |]; vm_compute; congruence.
Qed.

(** X12. Whatever the environment answers, [uninstall] never creates or
    updates a resource, never talks to the platform (no credential
    validation, license-key retrieval or link call) and runs the uninstall
    permission pre-check, not the install one: every call of the run is the
    session, that pre-check, a prompt or one of the three removals. *)
Theorem uninstall_only_removes (env : Env) (c : UninstallConfig) :
  forallb uninstall_call (history (uninstall env c)) = true /\
  existsb creates_or_updates (calls (history (uninstall env c))) = false.
Proof.
  pose proof (writes_only_history _ _ _ (uninstall_frame env c)) as H.
  split; [exact H |].
  apply forallb_calls_exclude with (Q := uninstall_call); [| exact H].
  intros [A o r | line]; [destruct o |]; vm_compute; congruence.
Qed.

(** ** uninstall: prompts and removals *)

(** The prompt [text] was shown and answered yes. *)
Definition accepted (text : string) (e : event) : bool :=
  match e with
  | Called o r =>
      match o in op T return result T -> bool with
      | Confirm shown =>
          fun r =>
            match r with
            | Ok answer => String.eqb shown text && answer
            | Raise _ => false
            end
      | _ => fun _ => false
      end r
  | Printed _ => false
  end.

(** The prompt [text] was shown. *)
Definition asked (text : string) (e : event) : bool :=
  match e with
  | Called o _ =>
      match o with
      | Confirm shown => String.eqb shown text
      | _ => false
      end
  | Printed _ => false
  end.

(** X13. The integration-role removal is only ever called for a truthy
    account id (not for a missing one, nor for the id 0), and only with
    consent: the run is forced or the role prompt was answered yes. *)
Theorem uninstall_role_removal_needs_consent (env : Env)
    (c : UninstallConfig) :
  attempted KRemoveIntegrationRole (history (uninstall env c)) = true ->
  truthy (u_nr_account_id c) = true /\
  (u_force c = true \/
   existsb (accepted role_prompt) (history (uninstall env c)) = true).
Proof.
  name_run (uninstall env c). unfold uninstall.
  steps env; intros ->; vm_compute; intros; try discriminate; auto.
Qed.

Lemma uninstall_role_removal_needs_consent_witness :
  truthy (u_nr_account_id (interactive_uninstall (PyInt 1))) = true /\
  (u_force (interactive_uninstall (PyInt 1)) = true \/
   existsb (accepted role_prompt)
     (history (uninstall (world_env fair_weather)
                 (interactive_uninstall (PyInt 1)))) = true).
Proof.
  exact (uninstall_role_removal_needs_consent (world_env fair_weather)
           (interactive_uninstall (PyInt 1)) eq_refl).
Defined.

(** X14. Declining the role prompt does not abort: in a run in which every
    call returns, the role removal is skipped and the command goes on to
    ask the log-ingestion-function prompt. *)
Theorem uninstall_role_prompt_declined (env : Env) (c : UninstallConfig) :
  existsb (declined role_prompt) (history (uninstall env c)) = true ->
  all_calls_returned (history (uninstall env c)) = true ->
  attempted KRemoveIntegrationRole (history (uninstall env c)) = false /\
  existsb (asked function_prompt) (history (uninstall env c)) = true.
Proof.
  name_run (uninstall env c). unfold uninstall.
  steps env; intros ->; vm_compute; intros; try discriminate; auto.
Qed.

Lemma uninstall_role_prompt_declined_witness :
  attempted KRemoveIntegrationRole
    (history (uninstall (world_env (refuses role_prompt))
                (interactive_uninstall (PyInt 1)))) = false /\
  existsb (asked function_prompt)
    (history (uninstall (world_env (refuses role_prompt))
                (interactive_uninstall (PyInt 1)))) = true.
Proof.
  exact (uninstall_role_prompt_declined (world_env (refuses role_prompt))
           (interactive_uninstall (PyInt 1)) eq_refl eq_refl).
Defined.

(** X15. Without force, the function removal is only called after the
    function prompt was answered yes, and the secret removal only after
    both the function prompt and the secret prompt were answered yes and
    the function removal has returned. *)
Theorem uninstall_removals_need_consent (env : Env) (c : UninstallConfig) :
  u_force c = false ->
  (attempted KRemoveLogIngestionFunction (history (uninstall env c)) = true ->
   existsb (accepted function_prompt) (history (uninstall env c)) = true) /\
  (attempted KRemoveLicenseKey (history (uninstall env c)) = true ->
   existsb (accepted function_prompt) (history (uninstall env c)) = true /\
   existsb (accepted secret_prompt) (history (uninstall env c)) = true /\
   exists b,
     outcome KRemoveLogIngestionFunction (history (uninstall env c)) = Some b).
Proof.
  intros Hforce. name_run (uninstall env c). unfold uninstall.
  rewrite Hforce.
  steps env; intros ->; vm_compute; split; intros; try discriminate;
    repeat split; eauto.
Qed.

Lemma uninstall_removals_need_consent_witness :
  existsb (accepted function_prompt)
    (history (uninstall (world_env fair_weather)
                (interactive_uninstall PyNone))) = true /\
  existsb (accepted secret_prompt)
    (history (uninstall (world_env fair_weather)
                (interactive_uninstall PyNone))) = true /\
  exists b,
    outcome KRemoveLogIngestionFunction
      (history (uninstall (world_env fair_weather)
                  (interactive_uninstall PyNone))) = Some b.
Proof.
  destruct (uninstall_removals_need_consent (world_env fair_weather)
              (interactive_uninstall PyNone) eq_refl) as [_ Hsecret].
  exact (Hsecret eq_refl).
Defined.

Definition uninstall_done_line : event := Printed (Done "Uninstall Complete").

(** X16. An uninstall run in which every call returns and neither the
    function prompt nor the secret prompt is declined always returns
    normally with [Uninstall Complete] as its last line, whatever the
    removals returned.  Its mutating calls are the role removal (for a
    truthy account id, when forced or consented to), the function removal
    and the secret removal, in this order, and it shows no prompt when
    forced, three prompts for a truthy account id and two otherwise. *)
Theorem uninstall_completes (env : Env) (c : UninstallConfig) :
  all_calls_returned (history (uninstall env c)) = true ->
  existsb (declined function_prompt) (history (uninstall env c)) = false ->
  existsb (declined secret_prompt) (history (uninstall env c)) = false ->
  ending (uninstall env c) = Ok tt /\
  final (history (uninstall env c)) = Some uninstall_done_line /\
  mutations (history (uninstall env c)) =
    ((if truthy (u_nr_account_id c)
         && (u_force c
             || existsb (accepted role_prompt) (history (uninstall env c)))
      then [KRemoveIntegrationRole] else [])
     ++ [KRemoveLogIngestionFunction; KRemoveLicenseKey])%list /\
  prompts (history (uninstall env c)) =
    (if u_force c then 0
     else if truthy (u_nr_account_id c) then 3 else 2).
Proof.
  name_run (uninstall env c). unfold uninstall.
  steps env; intros ->; vm_compute; intros; try discriminate;
    repeat split.
Qed.

Lemma uninstall_completes_witness :
  ending (uninstall (world_env feature_fails) (interactive_uninstall (PyInt 0)))
    = Ok tt /\
  final (history (uninstall (world_env feature_fails)
                    (interactive_uninstall (PyInt 0))))
    = Some uninstall_done_line /\
  mutations (history (uninstall (world_env feature_fails)
                        (interactive_uninstall (PyInt 0))))
    = [KRemoveLogIngestionFunction; KRemoveLicenseKey] /\
  prompts (history (uninstall (world_env feature_fails)
                      (interactive_uninstall (PyInt 0)))) = 2.
Proof.
  exact (uninstall_completes (world_env feature_fails)
           (interactive_uninstall (PyInt 0)) eq_refl eq_refl eq_refl).
Defined.

(** ** update: the order of the calls and the report *)

(** The calls of an update run in which every call returns, read off the
    configuration and the outcome of the function update. *)
Definition update_plan (c : UpdateConfig) (function_updated : bool)
  : list kind :=
  ([KSession]
   ++ (if p_aws_permissions_check c then [KEnsureInstallPermissions] else [])
   ++ [KUpdateLogIngestion]
   ++ (if p_enable_license_key_secret c
       then if function_updated then [KAutoInstallLicenseKey] else []
       else [KRemoveLicenseKey]))%list.

(** X17. In an update run in which every remote call returns, the calls
    are: the session, the install permission pre-check (when enabled), the
    function update, and then one secret step: with the secret feature
    enabled the auto-install, made only when the function update returned
    success; with it disabled the removal. *)
Theorem update_call_order (env : Env) (c : UpdateConfig) :
  all_calls_returned (history (update env c)) = true ->
  calls (history (update env c)) =
    update_plan c (passed KUpdateLogIngestion (history (update env c))).
Proof.
  unfold update_plan.
  name_run (update env c). unfold update.
  steps env; intros ->; cbn; intros; try discriminate; reflexivity.
Qed.

Lemma update_call_order_witness :
  calls (history (update (world_env fair_weather) checked_update)) =
    [KSession; KEnsureInstallPermissions; KUpdateLogIngestion;
     KAutoInstallLicenseKey].
Proof.
  exact (update_call_order (world_env fair_weather) checked_update eq_refl).
Defined.

(** X18. With the secret feature enabled, an update run in which every
    remote call returns reports the conjunction of the function update and
    the secret auto-install (counted when it was called). *)
Theorem update_secret_enabled_report (env : Env) (c : UpdateConfig) :
  p_enable_license_key_secret c = true ->
  all_calls_returned (history (update env c)) = true ->
  reported (history (update env c)) =
    Some (passed KUpdateLogIngestion (history (update env c))
          && passed KAutoInstallLicenseKey (history (update env c))).
Proof.
  intros Hon. name_run (update env c). unfold update. rewrite Hon.
  steps env; intros ->; cbn; intros; try discriminate; reflexivity.
Qed.

Lemma update_secret_enabled_report_witness :
  reported (history (update (world_env feature_fails) checked_update)) =
    Some (passed KUpdateLogIngestion
            (history (update (world_env feature_fails) checked_update))
          && passed KAutoInstallLicenseKey
               (history (update (world_env feature_fails) checked_update))).
Proof.
  exact (update_secret_enabled_report (world_env feature_fails)
           checked_update eq_refl eq_refl).
Defined.

Definition update_failure_line : event :=
  Printed (Failure "Update Incomplete. See messages above for details.").

Definition update_done_line : event := Printed (Done "Update Complete").

(** X19. An update run in which every remote call returns ends in one of
    two ways: the failure summary is its last line and the process exits
    with code 1, or [Update Complete] is its last line and the command
    returns normally. *)
Theorem update_exit_status (env : Env) (c : UpdateConfig) :
  all_calls_returned (history (update env c)) = true ->
  (reported (history (update env c)) = Some false /\
   ending (update env c) = Raise (Exit 1) /\
   final (history (update env c)) = Some update_failure_line) \/
  (reported (history (update env c)) = Some true /\
   ending (update env c) = Ok tt /\
   final (history (update env c)) = Some update_done_line).
Proof.
  name_run (update env c). unfold update.
  steps env; intros ->; cbn; intros; try discriminate;
    solve [ left; repeat split | right; repeat split ].
Qed.

Lemma update_exit_status_witness :
  (reported (history (update (world_env function_update_fails)
                        checked_update)) = Some false /\
   ending (update (world_env function_update_fails) checked_update)
     = Raise (Exit 1) /\
   final (history (update (world_env function_update_fails) checked_update))
     = Some update_failure_line) \/
  (reported (history (update (world_env function_update_fails)
                        checked_update)) = Some true /\
   ending (update (world_env function_update_fails) checked_update) = Ok tt /\
   final (history (update (world_env function_update_fails) checked_update))
     = Some update_done_line).
Proof.
  exact (update_exit_status (world_env function_update_fails) checked_update
           eq_refl).
Defined.

(** What the function update was asked to apply: the license key, the
    logging toggle, the sizing, the execution role and the tags. *)
Definition update_request (e : event)
  : option (option string * option bool * option Z * option Z
            * option string * Tags) :=
  match e with
  | Called o _ =>
      match o with
      | UpdateLogIngestion _ key logs memory timeout role tags =>
          Some (key, logs, memory, timeout, role, tags)
      | _ => None
      end
  | Printed _ => None
  end.

Definition requests_config (c : UpdateConfig) (e : event) : Prop :=
  forall request, update_request e = Some request ->
    request = (None, p_enable_logs c, p_memory_size c, p_timeout c,
               p_role_name c, p_tags c).

Lemma update_requests (env : Env) (c : UpdateConfig) :
  Forall (requests_config c) (history (update env c)).
Proof.
  unfold requests_config.
  name_run (update env c). unfold update.
  steps env; intros ->; cbn;
    repeat (apply Forall_cons;
              [ cbn; intros ? Hflow;
                first [ discriminate Hflow
                      | injection Hflow as <-; reflexivity ] |]);
    apply Forall_nil.
Qed.

(** X20. The function update of [update] is always asked with no license
    key ([None]) and with the logging toggle, memory size, timeout, role
    name and tags exactly as configured: an option that was left out
    reaches it as [None], not as a default. *)
Theorem update_passes_no_license_key (env : Env) (c : UpdateConfig)
    (e : event)
    (request : option string * option bool * option Z * option Z
               * option string * Tags) :
  In e (history (update env c)) ->
  update_request e = Some request ->
  request = (None, p_enable_logs c, p_memory_size c, p_timeout c,
             p_role_name c, p_tags c).
Proof.
  intros Hin Hrequest. pose proof (update_requests env c) as H.
  rewrite Forall_forall in H. exact (H e Hin request Hrequest).
Qed.

Lemma update_passes_no_license_key_witness :
  (None, Some true, Some 256%Z, None, None, [("team", "observability")])
  = (@None string, p_enable_logs checked_update, p_memory_size checked_update,
     p_timeout checked_update, p_role_name checked_update,
     p_tags checked_update).
Proof.
  apply (update_passes_no_license_key (world_env fair_weather) checked_update
           (Called (UpdateLogIngestion (SessionRef 0) None (Some true)
                      (Some 256%Z) None None [("team", "observability")])
              (Ok true))).
  - apply nth_error_In with (n := 3). reflexivity.
  - reflexivity.
Defined.

(** X21. Whenever an update run calls the secret auto-install, the secret
    feature is enabled, the function update before it has returned
    success, and the secret removal is not called in that run. *)
Theorem update_auto_install_after_success (env : Env) (c : UpdateConfig) :
  attempted KAutoInstallLicenseKey (history (update env c)) = true ->
  p_enable_license_key_secret c = true /\
  outcome KUpdateLogIngestion (history (update env c)) = Some true /\
  attempted KRemoveLicenseKey (history (update env c)) = false.
Proof.
  name_run (update env c). unfold update.
  steps env; intros ->; cbn; intros; try discriminate; repeat split.
Qed.

Lemma update_auto_install_after_success_witness :
  p_enable_license_key_secret checked_update = true /\
  outcome KUpdateLogIngestion
    (history (update (world_env feature_fails) checked_update)) = Some true /\
  attempted KRemoveLicenseKey
    (history (update (world_env feature_fails) checked_update)) = false.
Proof.
  exact (update_auto_install_after_success (world_env feature_fails)
           checked_update eq_refl).
Defined.

(** ** register *)

(** The click groups involved: the module's [integrations_group] and any
    group a caller passes in. *)
Inductive group_ref : Type :=
| IntegrationsGroup
| CallerGroup (id : nat).

Definition group_ref_eqb (a b : group_ref) : bool :=
  match a, b with
  | IntegrationsGroup, IntegrationsGroup => true
  | CallerGroup x, CallerGroup y => Nat.eqb x y
  | _, _ => false
  end.

(** A command object: the group and the three commands of this module, or
    a command defined elsewhere. *)
Inductive command : Type :=
| IntegrationsCommand
| InstallCommand
| UninstallCommand
| UpdateCommand
| ForeignCommand (name : string).

(** The [name=] each decorator gives. *)
Definition command_name (cmd : command) : string :=
  match cmd with
  | IntegrationsCommand => "integrations"
  | InstallCommand => "install"
  | UninstallCommand => "uninstall"
  | UpdateCommand => "update"
  | ForeignCommand name => name
  end.

(** The [commands] dictionary of a group, in insertion order. *)
Definition Commands : Type := list (string * command).

Fixpoint dict_get (key : string) (d : Commands) : option command :=
  match d with
  | [] => None
  | (k, v) :: rest => if String.eqb k key then Some v else dict_get key rest
  end.

(** [d[key] = cmd]: an existing key keeps its place and gets the new
    value, a new key goes to the end. *)
Fixpoint dict_set (key : string) (cmd : command) (d : Commands) : Commands :=
  match d with
  | [] => [(key, cmd)]
  | (k, v) :: rest =>
      if String.eqb k key then (key, cmd) :: rest
      else (k, v) :: dict_set key cmd rest
  end.

(** The group objects of the process, each with its dictionary. *)
Definition Groups : Type := group_ref -> Commands.

(** [group.add_command(cmd)]: click files the command under its name in
    the dictionary of that group object. *)
Definition add_command (g : group_ref) (cmd : command) (s : Groups) : Groups :=
  fun h =>
    if group_ref_eqb h g then dict_set (command_name cmd) cmd (s h) else s h.

Definition register (group : group_ref) (s : Groups) : Groups :=
  let s := add_command group IntegrationsCommand s in
  let s := add_command IntegrationsGroup InstallCommand s in
  let s := add_command IntegrationsGroup UninstallCommand s in
  add_command IntegrationsGroup UpdateCommand s.

(** The command a name leads to in a group. *)
Definition resolve (s : Groups) (g : group_ref) (name : string)
  : option command := dict_get name (s g).

Lemma dict_get_set_same (key : string) (cmd : command) (d : Commands) :
  dict_get key (dict_set key cmd d) = Some cmd.
Proof.
  induction d as [| [k v] rest IH]; simpl.
  - now rewrite String.eqb_refl.
  - destruct (String.eqb k key) eqn:E; simpl.
    + now rewrite String.eqb_refl.
    + now rewrite E.
Qed.

Lemma dict_get_set_other (key other : string) (cmd : command) (d : Commands) :
  other <> key ->
  dict_get other (dict_set key cmd d) = dict_get other d.
Proof.
  intros Hne. induction d as [| [k v] rest IH]; simpl.
  - destruct (String.eqb key other) eqn:E; [| reflexivity].
    apply String.eqb_eq in E. congruence.
  - destruct (String.eqb k key) eqn:E; simpl.
    + apply String.eqb_eq in E. subst k.
      destruct (String.eqb key other) eqn:E2; [| reflexivity].
      apply String.eqb_eq in E2. congruence.
    + now rewrite IH.
Qed.

Lemma dict_set_present (key : string) (cmd : command) (d : Commands) :
  dict_get key d = Some cmd -> dict_set key cmd d = d.
Proof.
  induction d as [| [k v] rest IH]; simpl; [discriminate |].
  destruct (String.eqb k key) eqn:E.
  - apply String.eqb_eq in E. subst k. now intros [= ->].
  - intros H. now rewrite (IH H).
Qed.

Lemma group_ref_eqb_refl (g : group_ref) : group_ref_eqb g g = true.
Proof. destruct g; simpl; [reflexivity | apply Nat.eqb_refl]. Qed.

Lemma group_ref_eqb_eq (a b : group_ref) :
  group_ref_eqb a b = true -> a = b.
Proof.
  destruct a, b; simpl; try discriminate; [reflexivity |].
  intros H. apply Nat.eqb_eq in H. now subst.
Qed.

(** X22. After [register(group)], whatever the groups held before and
    also when [group] is the integrations group itself, the name
    [integrations] in [group] leads to the integrations group, and the
    names [install], [uninstall] and [update] in the integrations group
    lead to the three commands: earlier entries under these names are
    replaced. *)
Theorem register_resolves (group : group_ref) (s : Groups) :
  resolve (register group s) group "integrations" = Some IntegrationsCommand /\
  resolve (register group s) IntegrationsGroup "install"
    = Some InstallCommand /\
  resolve (register group s) IntegrationsGroup "uninstall"
    = Some UninstallCommand /\
  resolve (register group s) IntegrationsGroup "update"
    = Some UpdateCommand.
Proof.
  unfold resolve, register, add_command. cbn [command_name].
  rewrite !group_ref_eqb_refl.
  destruct (group_ref_eqb IntegrationsGroup group) eqn:E.
  - apply group_ref_eqb_eq in E. subst group. cbn [group_ref_eqb].
    repeat split;
      repeat first [ rewrite dict_get_set_same
                   | rewrite dict_get_set_other by discriminate ];
      reflexivity.
  - destruct group as [| id]; [discriminate |]. cbn [group_ref_eqb].
    repeat split;
      repeat first [ rewrite dict_get_set_same
                   | rewrite dict_get_set_other by discriminate ];
      reflexivity.
Qed.

Definition registered_name (name : string) : bool :=
  String.eqb name "integrations" || String.eqb name "install"
  || String.eqb name "uninstall" || String.eqb name "update".

(** X23. [register] leaves every other command alone: in any group, a
    name other than [integrations], [install], [uninstall] and [update]
    leads to the same command, or to none, as before. *)
Theorem register_keeps_other_commands (group h : group_ref) (s : Groups)
    (name : string) :
  registered_name name = false ->
  resolve (register group s) h name = resolve s h name.
Proof.
  unfold registered_name. intros H.
  repeat (apply orb_false_iff in H as [H ?]).
  repeat match goal with
         | E : String.eqb _ _ = false |- _ => apply String.eqb_neq in E
         end.
  unfold resolve, register, add_command. cbn [command_name].
  destruct (group_ref_eqb h IntegrationsGroup), (group_ref_eqb h group);
    repeat rewrite dict_get_set_other by assumption; reflexivity.
Qed.

(** A command line that already has a [layers] command and a stale
    [integrations] entry. *)
Definition cli_before : Groups :=
  fun h =>
    match h with
    | CallerGroup 0 =>
        [("layers", ForeignCommand "layers");
         ("integrations", ForeignCommand "integrations")]
    | _ => []
    end.

Lemma register_keeps_other_commands_witness :
  resolve (register (CallerGroup 0) cli_before) (CallerGroup 0) "layers"
  = resolve cli_before (CallerGroup 0) "layers".
Proof.
  apply (register_keeps_other_commands (CallerGroup 0) (CallerGroup 0)
           cli_before "layers").
  reflexivity.
Defined.

(** X24. Registering twice is the same as registering once: the second
    [register(group)] leaves the dictionary of every group as the first
    one made it, with no duplicate entries. *)
Theorem register_twice (group h : group_ref) (s : Groups) :
  register group (register group s) h = register group s h.
Proof.
  destruct (register_resolves group s) as (Hg & Hi & Hu & Hp).
  unfold resolve in *.
  set (s1 := register group s) in *.
  unfold register at 1. unfold add_command. cbn [command_name].
  destruct (group_ref_eqb h IntegrationsGroup) eqn:Ei,
           (group_ref_eqb h group) eqn:Eg;
    try (apply group_ref_eqb_eq in Ei; subst h);
    try (apply group_ref_eqb_eq in Eg; subst group);
    repeat first
      [ rewrite (dict_set_present _ _ _ Hg)
      | rewrite (dict_set_present _ _ _ Hi)
      | rewrite (dict_set_present _ _ _ Hu)
      | rewrite (dict_set_present _ _ _ Hp) ];
    reflexivity.
Qed.

Example register_on_cli :
  register (CallerGroup 0) cli_before (CallerGroup 0) =
    [("layers", ForeignCommand "layers");
     ("integrations", IntegrationsCommand)] /\
  register (CallerGroup 0) cli_before IntegrationsGroup =
    [("install", InstallCommand); ("uninstall", UninstallCommand);
     ("update", UpdateCommand)].
Proof. split; reflexivity. Qed.
